(** * Video transcription to SRT subtitles and chapter timestamps

    A shallow embedding of [main.py]: the SRT time-code formatter
    [format_time], the coarse duration of [get_video_duration], the document
    builder [segments_to_srt], the transcription step [transcribe], the
    request built by [generate_summary], and the driver [main].

    Numbers.  [format_time] and [get_video_duration] use only [divmod], [//],
    [%], [int], [-] and [*], which Python defines alike on [int],
    [fractions.Fraction] and [float].  Seconds are modelled as exact rationals
    ([Q]): every finite float is one, and on every input used below as a
    concrete example the float operations are exact.  The rounding of
    binary64 in [(seconds - int(seconds)) * 1000] is not modelled: where that
    product rounds up to a whole number (0.009 * 1000 is 9.0 in binary64) the
    code prints one millisecond more than [format_time] does here.

    Text.  A Python [str] is a [string]; its characters are the code points
    below 256, as 8-bit [ascii]. *)

From Stdlib Require Import ZArith QArith Qround Lia Lqa Bool List Ascii String.
Import ListNotations.

Local Open Scope Z_scope.
Local Open Scope string_scope.

(** ** Python numbers *)

Module Py.

(** [a // b] on numbers: the floor of the quotient, as a number again. *)
Definition floordiv (a b : Q) : Q := inject_Z (Qfloor (a / b)).

(** [a % b]: what is left of [a] above [b * (a // b)]. *)
Definition mod_ (a b : Q) : Q := (a - b * floordiv a b)%Q.

(** [divmod(a, b)] is [(a // b, a % b)]. *)
Definition divmod (a b : Q) : Q * Q := (floordiv a b, mod_ a b).

(** [int(x)] truncates towards zero. *)
Definition int (x : Q) : Z := Z.quot (Qnum x) (Z.pos (Qden x)).

(** ** Python text *)

(** The character of a decimal digit [0..9]. *)
Definition digit (d : Z) : ascii := ascii_of_N (Z.to_N (48 + d)).

(** Decimal digits of a non-negative integer, most significant first. *)
Fixpoint digits (fuel : nat) (n : Z) : string :=
  match fuel with
  | O => String (digit (n mod 10)) ""
  | S fuel' =>
      if (n <? 10)%Z then String (digit n) ""
      else digits fuel' (n / 10) ++ String (digit (n mod 10)) ""
  end.

(** A number below [2 ^ (k + 1)] has at most [k + 1] decimal digits. *)
Definition digits_fuel (n : Z) : nat := Z.to_nat (Z.log2 n).

(** The decimal numeral of a non-negative integer. *)
Definition decimal (n : Z) : string := digits (digits_fuel n) n.

(** [str(n)] for an [int]. *)
Definition str (n : Z) : string :=
  if (n <? 0)%Z then String "-" (decimal (- n)) else decimal n.

(** [s.zfill(width)] for a string of digits: zeros on the left up to
    [width] characters, nothing removed. *)
Fixpoint zeros (k : nat) : string :=
  match k with
  | O => ""
  | S k' => String "0" (zeros k')
  end.

Definition zfill (width : nat) (s : string) : string :=
  zeros (width - String.length s) ++ s.

(** [format(n, "0<width>d")], the [{n:02d}] and [{n:03d}] of an f-string:
    the sign comes first and counts in the width. *)
Definition format_0d (width : nat) (n : Z) : string :=
  if (n <? 0)%Z then String "-" (zfill (width - 1) (decimal (- n)))
  else zfill width (decimal n).

(** Whitespace as [str.strip] sees it, among the code points below 256:
    TAB, LF, VT, FF, CR (9-13), FS, GS, RS, US and the space (28-32),
    NEL (133, U+0085) and the no-break space (160, U+00A0). *)
Definition isspace (c : ascii) : bool :=
  let n := N_of_ascii c in
  ((9 <=? n) && (n <=? 13) || (28 <=? n) && (n <=? 32)
   || (n =? 133) || (n =? 160))%N.

Fixpoint lstrip (s : string) : string :=
  match s with
  | String c s' => if isspace c then lstrip s' else s
  | EmptyString => ""
  end.

(** What is left once trailing whitespace is dropped. *)
Fixpoint rstrip (s : string) : string :=
  match s with
  | EmptyString => ""
  | String c s' =>
      match rstrip s' with
      | EmptyString => if isspace c then "" else String c ""
      | r => String c r
      end
  end.

Definition strip (s : string) : string := rstrip (lstrip s).

(** [sep.join(items)]. *)
Definition join (sep : string) (items : list string) : string :=
  String.concat sep items.

End Py.

(** ** The time-code formatter *)

(** [format_time(seconds)], lines 138-143. *)
Definition format_time (seconds : Q) : string :=
  let '(hours, remainder) := Py.divmod seconds 3600 in
  let '(minutes, seconds) := Py.divmod remainder 60 in
  let milliseconds := Py.int ((seconds - inject_Z (Py.int seconds)) * 1000) in
  Py.format_0d 2 (Py.int hours) ++ ":" ++ Py.format_0d 2 (Py.int minutes) ++ ":"
    ++ Py.format_0d 2 (Py.int seconds) ++ "," ++ Py.format_0d 3 milliseconds.


(** The pattern [\d{2}:\d{2}:\d{2},\d{3}], matched against a whole string:
    a pattern is a row of single characters, each a digit class or a
    literal. *)
Inductive pat : Type :=
  | Digit
  | Lit (c : ascii).

Definition is_digit (c : ascii) : bool :=
  ((48 <=? N_of_ascii c) && (N_of_ascii c <=? 57))%N.

Definition pat_ok (p : pat) (c : ascii) : bool :=
  match p with
  | Digit => is_digit c
  | Lit c' => Ascii.eqb c c'
  end.

Fixpoint fullmatch (ps : list pat) (s : string) : bool :=
  match ps, s with
  | [], EmptyString => true
  | p :: ps', String c s' => pat_ok p c && fullmatch ps' s'
  | _, _ => false
  end.

Definition time_code_pattern : list pat :=
  [Digit; Digit; Lit ":"; Digit; Digit; Lit ":"; Digit; Digit; Lit ",";
   Digit; Digit; Digit].

(** ** Collaborators and effects *)

(** The classes the handlers of this program tell apart: [ValueError]
    (with its subclasses), every other subclass of [Exception], and the
    exceptions outside [Exception] ([KeyboardInterrupt], [SystemExit],
    [GeneratorExit]), which neither [except ValueError] nor
    [except Exception] catches. *)
Inductive exn_class : Type :=
  | ValueError
  | Exception
  | BaseException.

(** A raised exception; [message] is what [str(e)] and [{e}] show. *)
Record exn : Type := Exn { class : exn_class; message : string }.

(** A command-line path: [args.file] is [None] without [--file]. *)
Definition path : Type := option string.

Inductive AudioFileClip : Type := AudioStream.

(** What the code reads of an opened [VideoFileClip]. *)
Record clip : Type := Clip { audio : option AudioFileClip; duration : Q }.

(** One entry of [result["segments"]]. *)
Record segment : Type := Segment { start : Q; end_ : Q; text : string }.

(** What [whisper_model.transcribe] returns. *)
Record whisper_result : Type :=
  WhisperResult { result_text : string; segments : list segment }.

Record message_ : Type := Message { role : string; content : string }.

(** The keyword arguments of [client.chat.completions.create]. *)
Record request : Type :=
  Request { model : string; messages : list message_; temperature : Q }.

(** The world outside the program: the command line, the video library,
    the whisper model, the chat service (its answer is
    [response.choices[0].message.content], a text or [None]) and the files
    opened for writing ([Some e] when [open] raises [e]). *)
Record world : Type := World {
  args_file : path;
  VideoFileClip : path -> exn + clip;
  whisper_model_transcribe : path -> exn + whisper_result;
  chat_completions_create : request -> exn + option string;
  open_w : string -> option exn
}.

(** What the program does to the world, in order. *)
Inductive event : Type :=
  | VideoOpened (p : path)
  | VideoClosed (p : path)
  | WhisperCalled (p : path)
  | ChatCalled (r : request)
  | Printed (s : string)
  | Written (file : string) (data : string).

(** How a call ends. *)
Inductive outcome (A : Type) : Type :=
  | Return (a : A)
  | Raise (e : exn).
Arguments Return {A} a.
Arguments Raise {A} e.

(** A computation: the events it causes, then how it ends. *)
Definition M (A : Type) : Type := list event * outcome A.

Definition ret {A} (a : A) : M A := ([], Return a).

Definition raise {A} (e : exn) : M A := ([], Raise e).

Definition emit (ev : event) : M unit := ([ev], Return tt).

Definition bind {A B} (m : M A) (k : A -> M B) : M B :=
  match m with
  | (t, Return a) => let '(t', o) := k a in ((t ++ t')%list, o)
  | (t, Raise e) => (t, Raise e)
  end.

Notation "x <- m ;; k" := (bind m (fun x => k))
  (at level 61, m at next level, right associativity).
Notation "m ;; k" := (bind m (fun _ => k))
  (at level 61, right associativity).

(** [try: m  except ... as e: handler e]; a [handler] that raises [e] again
    stands for an exception that no [except] clause matches. *)
Definition try_except {A} (m : M A) (handler : exn -> M A) : M A :=
  match m with
  | (t, Raise e) => let '(t', o) := handler e in ((t ++ t')%list, o)
  | (t, Return a) => (t, Return a)
  end.

(** [try: m  finally: cleanup], with a cleanup that does not raise. *)
Definition finally {A} (m : M A) (cleanup : list event) : M A :=
  let '(t, o) := m in ((t ++ cleanup)%list, o).

Definition events {A} (m : M A) : list event := fst m.
Definition result {A} (m : M A) : outcome A := snd m.

(** A call of a collaborator: it returns or raises as the world says. *)
Definition call {A} (r : exn + A) : M A :=
  match r with
  | inl e => raise e
  | inr a => ret a
  end.

Definition print (s : string) : M unit := emit (Printed s).

(** [with VideoFileClip(video_path) as video: body]: the clip is closed on
    the way out, also when [body] raises; when the constructor raises there
    is nothing to close. *)
Definition with_VideoFileClip {A} (w : world) (video_path : path)
    (body : clip -> M A) : M A :=
  video <- call (VideoFileClip w video_path) ;;
  emit (VideoOpened video_path) ;;
  finally (body video) [VideoClosed video_path].

(** [with open(file, "w") as f: print(note); f.write(data)].  Only [open]
    is taken to fail: [print], [f.write] and the closing of an opened file
    are taken to succeed. *)
Definition write_file (w : world) (file note data : string) : M unit :=
  match open_w w file with
  | Some e => raise e
  | None => print note ;; emit (Written file data)
  end.

(** ** The program *)

(** [cmd()], lines 30-50. *)
Definition cmd (w : world) : M path := ret (args_file w).

(** The string built at lines 69-72 from [video.duration]. *)
Definition coarse_duration (duration : Q) : string :=
  let hours := Py.int (Py.floordiv duration 3600) in
  let minutes := Py.int (Py.floordiv (Py.mod_ duration 3600) 60) in
  let seconds := Py.int (Py.mod_ duration 60) in
  Py.str hours ++ ":" ++ Py.str minutes ++ ":" ++ Py.str seconds.

(** [get_video_duration(video_path)], lines 53-72. *)
Definition get_video_duration (w : world) (video_path : path) : M string :=
  with_VideoFileClip w video_path (fun video =>
    ret (coarse_duration (duration video))).

Definition no_audio_message : string := "File does not contain an audio stream.".

(** Lines 90-92 of [transcribe]: the check made before the model runs. *)
Definition audio_gate (w : world) (video_path : path) : M unit :=
  with_VideoFileClip w video_path (fun video =>
    match audio video with
    | None => raise (Exn ValueError no_audio_message)
    | Some _ => ret tt
    end).

(** [transcribe(video_path)], lines 75-101; [None] is Python's [None]. *)
Definition transcribe (w : world) (video_path : path) : M (option whisper_result) :=
  try_except
    (audio_gate w video_path ;;
     emit (WhisperCalled video_path) ;;
     result <- call (whisper_model_transcribe w video_path) ;;
     ret (Some result))
    (fun e =>
       match class e with
       | ValueError =>
           print ("Error transcribing video: " ++ message e) ;;
           ret None
       | Exception =>
           print ("Unexpected error transcribing video: " ++ message e) ;;
           ret None
       | BaseException => raise e
       end).

Definition newline : string := String (ascii_of_N 10) "".

(** [enumerate(items)]. *)
Definition enumerate {A} (items : list A) : list (Z * A) :=
  combine (map Z.of_nat (seq 0 (List.length items))) items.

(** One turn of the loop of [segments_to_srt], lines 119-133. *)
Definition srt_step (srt_text : list string) (entry : Z * segment) : list string :=
  let '(i, segment) := entry in
  let srt_index := i + 1 in
  let srt_text := (srt_text ++ [Py.str srt_index])%list in
  let start_time := format_time (start segment) in
  let end_time := format_time (end_ segment) in
  let srt_text := (srt_text ++ [(start_time ++ " --> " ++ end_time)%string])%list in
  let srt_text := (srt_text ++ [Py.strip (text segment)])%list in
  (srt_text ++ [""])%list.

(** The list [srt_text] when the loop ends. *)
Definition srt_lines (segments : list segment) : list string :=
  fold_left srt_step (enumerate segments) [].

(** [segments_to_srt(segments)], lines 104-135. *)
Definition segments_to_srt (segments : list segment) : string :=
  Py.join newline (srt_lines segments).

(** The system message of [generate_summary], lines 170-215. *)
Definition system_prompt : string :=
  "You are a helpful assistant that will summarize
                           audio transcripts and generate YouTube video
                           timestamps for important topics in the transcript.
                           You will adhere to YouTube video timestamp format.
                           The format expects the timestamps to be formatted as
                           `HH:MM:SS` for videos longer than an hour and as `MM:SS`
                           for videos less than an hour. For example, a video
                           with a length of 00:59:59 (provided as `HH:MM:SS`)
                           would have timestamps formatted as `MM:SS`, with a min
                           value of 00:00 and a max value of 59:59. 
                           
                           The timestamps should consider segments in the
                           transcript but not include each segment but only
                           summarize the general themes. The timestamps should
                           not exceed the full length of the video. Segments
                           will be provided in SRT format `HH:MM:SS,MS -->
                           HH:MM:SS,MS` to assist with YouTube timestamp chapter
                           generation. You should not generate a summary for
                           each SRT segment, but rather, generate a set of
                           summary YouTube timestamps that can be used as key
                           points across all segments. 
                           
                           For example, a video with
                           a length of 00:20:00 might have 8-10 total timestamps
                           with the timestamp format `MM:SS`. It might have a
                           set of input text that follows the format: 
                           ```
                           1
                           00:00:00,000 --> 00:01:00,000
                           This is the first sentence of the first segment.
                           
                           2
                           00:01:00,000 --> 00:01:15,000
                           This is the second sentence of the second segment.
                           
                           3
                           00:01:15,000 --> 00:02:20,000
                           This is the third sentence of the third segment.
                           ```
                           Which would result in a set of timestamps like:
                           ```
                           0:00 - Introduction
                           1:15 - Topic overview
                           etc.
                           ```
                ".

(** The request of [generate_summary], lines 165-223. *)
Definition summary_request (transcript length : string) : request :=
  {| model := "gpt-4o";
     messages :=
       [ {| role := "system"; content := system_prompt |};
         {| role := "user";
            content := "The following transcript is for a video of length "
                       ++ length ++ ":" ++ newline ++ " " ++ transcript |} ];
     temperature := 7 # 10 |}.

(** [generate_summary(transcript, length)], lines 146-224. *)
Definition generate_summary (w : world) (transcript length : string) : M string :=
  let request := summary_request transcript length in
  emit (ChatCalled request) ;;
  content <- call (chat_completions_create w request) ;;
  match content with
  | Some content => ret (Py.strip content)
  | None => raise (Exn Exception "'NoneType' object has no attribute 'strip'")
  end.

(** The body of the [try] of [main], lines 237-259. *)
Definition main_body (w : world) : M unit :=
  video_path <- cmd w ;;
  duration <- get_video_duration w video_path ;;
  print ("Video duration: " ++ duration) ;;
  transcript <- transcribe w video_path ;;
  transcript <- match transcript with
                | None => raise (Exn Exception "Cannot proceed without a valid transcription.")
                | Some transcript => ret transcript
                end ;;
  let segments := segments_to_srt (segments transcript) in
  let segments_file := "segments.srt" in
  write_file w segments_file
    ("Writing segments SRT file to: " ++ segments_file) segments ;;
  summary <- generate_summary w segments duration ;;
  let timestamps_file := "timestamps.txt" in
  write_file w timestamps_file
    ("Writing YouTube timestamps file to: " ++ timestamps_file) summary.

(** How the process ends: [main] returns, or [exit(message)] stops it, or
    an exception that [except Exception] does not catch leaves [main]. *)
Inductive status : Type :=
  | Finished
  | Exited (message : string)
  | Uncaught (e : exn).

(** [main()], lines 227-261. *)
Definition main (w : world) : list event * status :=
  match main_body w with
  | (t, Return _) => (t, Finished)
  | (t, Raise e) =>
      match class e with
      | BaseException => (t, Uncaught e)
      | _ => (t, Exited ("Error processing video: " ++ message e))
      end
  end.

(** Parsing a decimal numeral back, to read the index lines of a document. *)
Definition digit_value (c : ascii) : Z := Z.of_N (N_of_ascii c) - 48.

Fixpoint numeral_value (acc : Z) (s : string) : Z :=
  match s with
  | EmptyString => acc
  | String c s' => numeral_value (10 * acc + digit_value c) s'
  end.

(** The four lines of the block of one numbered segment: index,
    [start --> end], trimmed text, blank line. *)
Definition srt_block (entry : Z * segment) : list string :=
  [ Py.str (fst entry + 1);
    format_time (start (snd entry)) ++ " --> " ++ format_time (end_ (snd entry));
    Py.strip (text (snd entry));
    "" ].

(** The text of one block: its first three lines, each ended by a newline
    (the fourth line is empty). *)
Definition render_block (entry : Z * segment) : string :=
  Py.str (fst entry + 1) ++ newline
    ++ format_time (start (snd entry)) ++ " --> " ++ format_time (end_ (snd entry)) ++ newline
    ++ Py.strip (text (snd entry)) ++ newline.

(** A block read back from the lines of a document. *)
Record block : Type :=
  Block { index_line : string; time_line : string; text_line : string; last_line : string }.

Fixpoint blocks (lines : list string) : list block :=
  match lines with
  | i :: t :: x :: b :: rest => Block i t x b :: blocks rest
  | _ => []
  end.

(** The text of a block read back: its four lines, a newline between
    two. *)
Definition block_text (b : block) : string :=
  index_line b ++ newline ++ time_line b ++ newline ++ text_line b ++ newline
    ++ last_line b.

(** The text of a document: its blocks, a newline between two. *)
Fixpoint document_text (document : list block) : string :=
  match document with
  | [] => ""
  | [b] => block_text b
  | b :: rest => block_text b ++ newline ++ document_text rest
  end.

(** The four lines of a block, from its index, its segment and its text
    line. *)
Definition block_lines (index : Z) (seg : segment) (text_line : string) : list string :=
  [ Py.str index;
    format_time (start seg) ++ " --> " ++ format_time (end_ seg);
    text_line;
    "" ].

(** A numeral with a zero in front of other digits. *)
Definition zero_padded (s : string) : bool :=
  match s with
  | String "0" (String _ _) => true
  | _ => false
  end.

(** [needle in hay]. *)
Definition contains (hay needle : string) : Prop :=
  exists before after, hay = before ++ needle ++ after.

Definition example_world : world :=
  {| args_file := Some "talk.mp4";
     VideoFileClip := fun _ => inr {| audio := Some AudioStream; duration := 150 |};
     whisper_model_transcribe := fun _ =>
       inr {| result_text := "Hello";
              segments := [ {| start := 0; end_ := 125 # 100; text := " Hello" |} ] |};
     chat_completions_create := fun _ => inr (Some "0:00 - Introduction
");
     open_w := fun _ => None |}.

(** How a call of [format_time] ends: its body raises nothing and calls
    nothing that fails on a number, so it returns its string. *)
Definition format_time_outcome (seconds : Q) : outcome string :=
  Return (format_time seconds).



(** A world whose video has no audio stream. *)
Definition silent_world : world :=
  {| args_file := Some "silent.mp4";
     VideoFileClip := fun _ => inr {| audio := None; duration := 150 |};
     whisper_model_transcribe := fun _ =>
       inr {| result_text := ""; segments := [] |};
     chat_completions_create := fun _ => inr (Some "");
     open_w := fun _ => None |}.

(** What the handlers of [transcribe] print before the message (no handler
    takes an exception outside [Exception]: nothing is printed for one). *)
Definition transcribe_prefix (c : exn_class) : string :=
  match c with
  | ValueError => "Error transcribing video: "
  | Exception => "Unexpected error transcribing video: "
  | BaseException => ""
  end.

(** ** The time code, field by field *)

(** Whole milliseconds in [seconds]. *)
Definition millis (seconds : Q) : Z := Qfloor (seconds * 1000).

(** The time code of a whole number of milliseconds. *)
Definition time_code (t : Z) : string :=
  Py.format_0d 2 (t / 3600000) ++ ":" ++ Py.format_0d 2 (t / 60000 mod 60) ++ ":"
    ++ Py.format_0d 2 (t / 1000 mod 60) ++ "," ++ Py.format_0d 3 (t mod 1000).

(** The numeral of [n] on exactly [k] digits, most significant first. *)
Fixpoint fixed (k : nat) (n : Z) : string :=
  match k with
  | O => ""
  | S k' => String (Py.digit (n / 10 ^ Z.of_nat k')) (fixed k' (n mod 10 ^ Z.of_nat k'))
  end.

(** ** Reading the output back *)

(** The longest prefix of decimal digits, and what follows it. *)
Fixpoint span_digits (s : string) : string * string :=
  match s with
  | String c s' =>
      if is_digit c then
        let '(ds, rest) := span_digits s' in (String c ds, rest)
      else ("", s)
  | EmptyString => ("", "")
  end.

(** The number written by a non-empty row of digits. *)
Definition number (ds : string) : option Z :=
  match ds with
  | EmptyString => None
  | _ => Some (numeral_value 0 ds)
  end.

(** The rest of [s] after the character [c], when [s] starts with it. *)
Definition expect (c : ascii) (s : string) : option string :=
  match s with
  | String c' s' => if Ascii.eqb c c' then Some s' else None
  | EmptyString => None
  end.

(** A number, then the separator [c]. *)
Definition field (c : ascii) (s : string) : option (Z * string) :=
  let '(ds, rest) := span_digits s in
  match number ds, expect c rest with
  | Some n, Some rest' => Some (n, rest')
  | _, _ => None
  end.

(** The last number of a text: nothing may follow it. *)
Definition last_field (s : string) : option Z :=
  let '(ds, rest) := span_digits s in
  match rest with
  | EmptyString => number ds
  | _ => None
  end.

(** [hours:minutes:seconds,milliseconds] read as a number of milliseconds. *)
Definition parse_time_code (s : string) : option Z :=
  match field ":" s with
  | Some (h, s1) =>
      match field ":" s1 with
      | Some (m, s2) =>
          match field "," s2 with
          | Some (c, s3) =>
              match last_field s3 with
              | Some f => Some (3600000 * h + 60000 * m + 1000 * c + f)
              | None => None
              end
          | None => None
          end
      | None => None
      end
  | None => None
  end.

(** [hours:minutes:seconds] read as three numbers. *)
Definition parse_hms (s : string) : option (Z * Z * Z) :=
  match field ":" s with
  | Some (h, s1) =>
      match field ":" s1 with
      | Some (m, s2) =>
          match last_field s2 with
          | Some c => Some (h, m, c)
          | None => None
          end
      | None => None
      end
  | None => None
  end.

(** A row of decimal digits. *)
Fixpoint digits_only (s : string) : bool :=
  match s with
  | String c s' => is_digit c && digits_only s'
  | EmptyString => true
  end.

(** A text that is the numeral of [n]: digits only, at least one, worth [n]. *)
Definition writes (s : string) (n : Z) : Prop :=
  digits_only s = true /\ s <> "" /\ numeral_value 0 s = n.

(** Whitespace at the ends of a text, and texts of whitespace only. *)
Fixpoint all_space (s : string) : bool :=
  match s with
  | String c s' => Py.isspace c && all_space s'
  | EmptyString => true
  end.

Definition starts_with_space (s : string) : bool :=
  match s with
  | String c _ => Py.isspace c
  | EmptyString => false
  end.

Fixpoint ends_with_space (s : string) : bool :=
  match s with
  | EmptyString => false
  | String c EmptyString => Py.isspace c
  | String _ s' => ends_with_space s'
  end.

(** [t] is [s] with the whitespace taken off its two ends, and nothing
    else changed. *)
Definition trimmed (s t : string) : Prop :=
  exists before after,
    s = before ++ t ++ after
    /\ all_space before = true /\ all_space after = true
    /\ starts_with_space t = false /\ ends_with_space t = false.

(** ** Reading a trace *)

Definition path_eqb (p q : path) : bool :=
  match p, q with
  | Some a, Some b => String.eqb a b
  | None, None => true
  | _, _ => false
  end.

(** Every video that is opened is closed by the very next event, and
    nothing is closed that is not open. *)
Fixpoint closed_in_turn (t : list event) : bool :=
  match t with
  | [] => true
  | VideoOpened p :: t' =>
      match t' with
      | VideoClosed q :: t'' => path_eqb p q && closed_in_turn t''
      | _ => false
      end
  | VideoClosed _ :: _ => false
  | _ :: t' => closed_in_turn t'
  end.

Definition is_whisper_call (ev : event) : bool :=
  match ev with WhisperCalled _ => true | _ => false end.

Definition is_chat_call (ev : event) : bool :=
  match ev with ChatCalled _ => true | _ => false end.

Definition is_write (ev : event) : bool :=
  match ev with Written _ _ => true | _ => false end.

(** The segment [entry] numbered [k] places further. *)
Definition shift_index (k : nat) (entry : Z * segment) : Z * segment :=
  (fst entry + Z.of_nat k, snd entry).

(** A world whose chat service raises [e]; all the rest works. *)
Definition chat_fails (e : exn) : world :=
  {| args_file := Some "talk.mp4";
     VideoFileClip := fun _ => inr {| audio := Some AudioStream; duration := 150 |};
     whisper_model_transcribe := fun _ =>
       inr {| result_text := "Hello";
              segments := [ {| start := 0; end_ := 125 # 100; text := " Hello" |} ] |};
     chat_completions_create := fun _ => inl e;
     open_w := fun _ => None |}.

(** A world whose video cannot be opened. *)
Definition unreadable_world (e : exn) : world :=
  {| args_file := Some "missing.mp4";
     VideoFileClip := fun _ => inl e;
     whisper_model_transcribe := fun _ =>
       inr {| result_text := ""; segments := [] |};
     chat_completions_create := fun _ => inr (Some "");
     open_w := fun _ => None |}.

(** ** The stretches of a run of [main] *)

Definition exit_message (e : exn) : string := "Error processing video: " ++ message e.

Definition no_transcript : exn :=
  Exn Exception "Cannot proceed without a valid transcription.".

(** What [generate_summary] raises when the answer has no text. *)
Definition no_content : exn :=
  Exn Exception "'NoneType' object has no attribute 'strip'".

(** How [main] ends when the body of its [try] raises [e]. *)
Definition main_stop (e : exn) : status :=
  match class e with
  | BaseException => Uncaught e
  | _ => Exited (exit_message e)
  end.

(** Opening the video for its duration, and printing the duration. *)
Definition duration_events (p : path) (d : string) : list event :=
  [VideoOpened p; VideoClosed p; Printed ("Video duration: " ++ d)].

(** Checking the audio, then running the whisper model. *)
Definition whisper_events (p : path) : list event :=
  [VideoOpened p; VideoClosed p; WhisperCalled p].

(** Writing the subtitles, then asking for the summary. *)
Definition segments_events (srt d : string) : list event :=
  [Printed "Writing segments SRT file to: segments.srt";
   Written "segments.srt" srt;
   ChatCalled (summary_request srt d)].

(** Writing the summary. *)
Definition timestamps_events (answer : string) : list event :=
  [Printed "Writing YouTube timestamps file to: timestamps.txt";
   Written "timestamps.txt" (Py.strip answer)].

(** * Properties *)

(** ** Numbers *)

Section Numbers.

Local Open Scope Q_scope.

Lemma int_inject_Z (z : Z) : Py.int (inject_Z z) = z.
Proof. unfold Py.int; simpl. apply Z.quot_1_r. Qed.

Lemma int_nonneg (x : Q) : 0 <= x -> Py.int x = Qfloor x.
Proof.
  destruct x as [n d]; unfold Qle, Py.int; simpl; intros H.
  apply Z.quot_div_nonneg; lia.
Qed.

Lemma floor_bounds (x : Q) : inject_Z (Qfloor x) <= x /\ x < inject_Z (Qfloor x) + 1.
Proof.
  split; [apply Qfloor_le|].
  generalize (Qlt_floor x). rewrite inject_Z_plus. auto.
Qed.

Lemma floor_unique (x : Q) (z : Z) :
  inject_Z z <= x -> x < inject_Z z + 1 -> Qfloor x = z.
Proof.
  intros Hlo Hhi.
  destruct (floor_bounds x) as [Flo Fhi].
  assert (A : inject_Z z < inject_Z (Qfloor x + 1)).
  { rewrite inject_Z_plus. eapply Qle_lt_trans; eauto. }
  assert (B : inject_Z (Qfloor x) < inject_Z (z + 1)).
  { rewrite inject_Z_plus. eapply Qle_lt_trans; eauto. }
  rewrite <- Zlt_Qlt in A, B. lia.
Qed.

Lemma floor_div (x k : Q) (z : Z) :
  0 < k -> inject_Z z * k <= x -> x < (inject_Z z + 1) * k -> Qfloor (x / k) = z.
Proof.
  intros Hk Hlo Hhi. apply floor_unique.
  - apply Qle_shift_div_l; assumption.
  - apply Qlt_shift_div_r; assumption.
Qed.

End Numbers.

Section TimeFields.

Local Open Scope Q_scope.

(** A number of milliseconds, split into the four fields. *)
Lemma time_fields (t : Z) :
  (t = 3600000 * (t / 3600000) + 60000 * (t / 60000 mod 60)
       + 1000 * (t / 1000 mod 60) + t mod 1000
   /\ 0 <= t / 60000 mod 60 <= 59
   /\ 0 <= t / 1000 mod 60 <= 59
   /\ 0 <= t mod 1000 <= 999)%Z.
Proof.
  repeat split; Z.div_mod_to_equations; lia.
Qed.

Lemma millis_fields (s : Q) :
  let t := millis s in
  let h := (t / 3600000)%Z in
  let m := (t / 60000 mod 60)%Z in
  let c := (t / 1000 mod 60)%Z in
  let f := (t mod 1000)%Z in
  3600000 * inject_Z h + 60000 * inject_Z m + 1000 * inject_Z c + inject_Z f <= s * 1000
  /\ s * 1000 < 3600000 * inject_Z h + 60000 * inject_Z m + 1000 * inject_Z c + inject_Z f + 1
  /\ 0 <= inject_Z m /\ inject_Z m <= 59
  /\ 0 <= inject_Z c /\ inject_Z c <= 59
  /\ 0 <= inject_Z f /\ inject_Z f <= 999.
Proof.
  intros t h m c f.
  destruct (time_fields t) as (E & Bm & Bc & Bf).
  fold h m c f in E, Bm, Bc, Bf.
  destruct (floor_bounds (s * 1000)) as [Lo Hi]. fold (millis s) in Lo, Hi. fold t in Lo, Hi.
  assert (EQ : inject_Z t == 3600000 * inject_Z h + 60000 * inject_Z m + 1000 * inject_Z c + inject_Z f).
  { rewrite E at 1. rewrite !inject_Z_plus, !inject_Z_mult. reflexivity. }
  rewrite EQ in Lo, Hi.
  repeat split; try assumption.
  all: try (change 0 with (inject_Z 0); rewrite <- Zle_Qle; lia).
  - change 59 with (inject_Z 59); rewrite <- Zle_Qle; lia.
  - change 59 with (inject_Z 59); rewrite <- Zle_Qle; lia.
  - change 999 with (inject_Z 999); rewrite <- Zle_Qle; lia.
Qed.

Lemma format_time_millis (s : Q) : format_time s = time_code (millis s).
Proof.
  destruct (millis_fields s) as (Lo & Hi & m0 & m1 & c0 & c1 & f0 & f1).
  unfold format_time, time_code, Py.divmod, Py.mod_, Py.floordiv.
  set (t := millis s) in *.
  set (h := (t / 3600000)%Z) in *.
  set (m := (t / 60000 mod 60)%Z) in *.
  set (c := (t / 1000 mod 60)%Z) in *.
  set (f := (t mod 1000)%Z) in *.
  assert (Eh : Qfloor (s / 3600) = h) by (apply floor_div; lra).
  rewrite Eh.
  assert (Em : Qfloor ((s - 3600 * inject_Z h) / 60) = m) by (apply floor_div; lra).
  rewrite Em.
  set (sec := s - 3600 * inject_Z h - 60 * inject_Z m).
  assert (Ec : Py.int sec = c).
  { rewrite int_nonneg by (unfold sec; lra). apply floor_unique; unfold sec; lra. }
  rewrite Ec.
  assert (Ef : Py.int ((sec - inject_Z c) * 1000) = f).
  { rewrite int_nonneg by (unfold sec; lra). apply floor_unique; unfold sec; lra. }
  rewrite Ef, !int_inject_Z. reflexivity.
Qed.

End TimeFields.

(** ** Decimal numerals *)

Section Decimal.

Lemma pow10_succ (f : nat) : 10 ^ (Z.of_nat (S f) + 1) = 10 * 10 ^ (Z.of_nat f + 1).
Proof. rewrite Nat2Z.inj_succ, <- Z.pow_succ_r by lia. f_equal; lia. Qed.

Lemma digits_fuel_enough (n : Z) :
  0 <= n -> n < 10 ^ (Z.of_nat (Py.digits_fuel n) + 1).
Proof.
  intros Hn. unfold Py.digits_fuel.
  rewrite Z2Nat.id by apply Z.log2_nonneg.
  destruct (Z.eq_dec n 0) as [->|Hz]; [reflexivity|].
  assert (Hs := Z.log2_spec n ltac:(lia)).
  assert (Hp : 2 ^ Z.succ (Z.log2 n) <= 10 ^ Z.succ (Z.log2 n)).
  { apply Z.pow_le_mono_l. lia. }
  unfold Z.succ in *. lia.
Qed.

Lemma digits_fuel_irrelevant (f f' : nat) (n : Z) :
  0 <= n -> n < 10 ^ (Z.of_nat f + 1) -> n < 10 ^ (Z.of_nat f' + 1) ->
  Py.digits f n = Py.digits f' n.
Proof.
  revert f' n. induction f as [|f IH]; intros [|f'] n Hn Hf Hf'; simpl.
  - reflexivity.
  - change (10 ^ (Z.of_nat 0 + 1)) with 10 in Hf.
    rewrite Z.mod_small by lia.
    destruct (Z.ltb_spec n 10); [reflexivity | lia].
  - change (10 ^ (Z.of_nat 0 + 1)) with 10 in Hf'.
    rewrite Z.mod_small by lia.
    destruct (Z.ltb_spec n 10); [reflexivity | lia].
  - destruct (Z.ltb_spec n 10); [reflexivity|].
    rewrite pow10_succ in Hf, Hf'.
    rewrite (IH f' (n / 10)); [reflexivity | | |].
    + apply Z.div_pos; lia.
    + apply Z.div_lt_upper_bound; lia.
    + apply Z.div_lt_upper_bound; lia.
Qed.

Lemma decimal_lt10 (n : Z) :
  0 <= n < 10 -> Py.decimal n = String (Py.digit n) "".
Proof.
  intros Hn. unfold Py.decimal.
  destruct (Py.digits_fuel n); simpl.
  - rewrite Z.mod_small by lia. reflexivity.
  - destruct (Z.ltb_spec n 10); [reflexivity | lia].
Qed.

Lemma decimal_ge10 (n : Z) :
  10 <= n -> Py.decimal n = Py.decimal (n / 10) ++ String (Py.digit (n mod 10)) "".
Proof.
  intros Hn. unfold Py.decimal.
  assert (Hf := digits_fuel_enough n ltac:(lia)).
  destruct (Py.digits_fuel n) as [|f] eqn:E.
  - change (10 ^ (Z.of_nat 0 + 1)) with 10 in Hf. lia.
  - simpl. destruct (Z.ltb_spec n 10); [lia|].
    rewrite pow10_succ in Hf.
    assert (0 <= n / 10) by (apply Z.div_pos; lia).
    rewrite (digits_fuel_irrelevant f (Py.digits_fuel (n / 10)) (n / 10)); auto.
    + apply Z.div_lt_upper_bound; lia.
    + apply digits_fuel_enough; assumption.
Qed.

(** Induction on the numeral: below ten, then one more digit. *)
Lemma decimal_ind (P : Z -> Prop) :
  (forall n, 0 <= n < 10 -> P n) ->
  (forall n, 10 <= n -> P (n / 10) -> P n) ->
  forall n, 0 <= n -> P n.
Proof.
  intros Hbase Hstep. apply Zlt_0_ind. intros m IH Hm.
  destruct (Z.lt_ge_cases m 10).
  - apply Hbase; lia.
  - apply Hstep; [assumption|]. apply IH.
    split; [apply Z.div_pos; lia | apply Z.div_lt; lia].
Qed.

End Decimal.

(** ** Text *)

Section Text.

Lemma length_append (s1 s2 : string) :
  String.length (s1 ++ s2) = (String.length s1 + String.length s2)%nat.
Proof. induction s1 as [|c s1 IH]; simpl; [reflexivity | now rewrite IH]. Qed.

Lemma append_assoc (s1 s2 s3 : string) : (s1 ++ s2) ++ s3 = s1 ++ s2 ++ s3.
Proof. induction s1 as [|c s1 IH]; simpl; [reflexivity | now rewrite IH]. Qed.

Lemma append_nil_r (s : string) : s ++ "" = s.
Proof. induction s as [|c s IH]; simpl; [reflexivity | now rewrite IH]. Qed.

Lemma N_of_ascii_digit (d : Z) :
  0 <= d < 10 -> N_of_ascii (Py.digit d) = Z.to_N (48 + d).
Proof. intros Hd. unfold Py.digit. apply N_ascii_embedding. lia. Qed.

Lemma is_digit_digit (d : Z) : 0 <= d < 10 -> is_digit (Py.digit d) = true.
Proof.
  intros Hd. unfold is_digit. rewrite N_of_ascii_digit by assumption.
  apply andb_true_intro; split; apply N.leb_le; lia.
Qed.

Lemma digit_value_digit (d : Z) : 0 <= d < 10 -> digit_value (Py.digit d) = d.
Proof.
  intros Hd. unfold digit_value. rewrite N_of_ascii_digit by assumption. lia.
Qed.

Lemma compare_digit (a b : Z) :
  0 <= a < 10 -> 0 <= b < 10 ->
  Ascii.compare (Py.digit a) (Py.digit b) = (a ?= b)%Z.
Proof.
  intros Ha Hb. unfold Ascii.compare.
  rewrite !N_of_ascii_digit by assumption.
  rewrite Z2N.inj_compare by lia. apply Z.add_compare_mono_l.
Qed.

Lemma digit_zero : Py.digit 0 = "0"%char.
Proof. reflexivity. Qed.

Lemma decimal_nonempty (n : Z) : 0 <= n -> (1 <= String.length (Py.decimal n))%nat.
Proof.
  intros Hn. destruct (Z.lt_ge_cases n 10).
  - rewrite decimal_lt10 by lia. simpl. lia.
  - rewrite decimal_ge10, length_append by lia. simpl. lia.
Qed.

Lemma decimal_length_ge100 (n : Z) : 100 <= n -> (3 <= String.length (Py.decimal n))%nat.
Proof.
  intros Hn.
  assert (10 <= n / 10) by (apply Z.div_le_lower_bound; lia).
  rewrite decimal_ge10, length_append by lia.
  rewrite decimal_ge10, length_append by lia.
  assert (Hq := decimal_nonempty (n / 10 / 10) ltac:(apply Z.div_pos; lia)).
  simpl. lia.
Qed.

Lemma numeral_value_append (acc : Z) (s : string) (c : ascii) :
  numeral_value acc (s ++ String c "") = 10 * numeral_value acc s + digit_value c.
Proof. revert acc. induction s as [|c' s IH]; intros acc; simpl; [reflexivity | apply IH]. Qed.

(** Reading a numeral back gives the number. *)
Lemma numeral_value_decimal (n : Z) : 0 <= n -> numeral_value 0 (Py.decimal n) = n.
Proof.
  intros Hn. pattern n. apply decimal_ind; [| |assumption]; clear n Hn.
  - intros n Hn. rewrite decimal_lt10 by assumption. simpl.
    rewrite digit_value_digit by assumption. reflexivity.
  - intros n Hn IH. rewrite decimal_ge10, numeral_value_append, IH by assumption.
    rewrite digit_value_digit by (apply Z.mod_pos_bound; lia).
    symmetry. apply Z.div_mod. lia.
Qed.

Lemma numeral_value_str (n : Z) : 0 <= n -> numeral_value 0 (Py.str n) = n.
Proof.
  intros Hn. unfold Py.str. destruct (Z.ltb_spec n 0); [lia|].
  apply numeral_value_decimal; assumption.
Qed.

End Text.

(** ** Numerals of a fixed width *)

Section Fixed.

Lemma pow10_pos (k : nat) : 0 < 10 ^ Z.of_nat k.
Proof. apply Z.pow_pos_nonneg; lia. Qed.

Lemma pow10_S (k : nat) : 10 ^ Z.of_nat (S k) = 10 * 10 ^ Z.of_nat k.
Proof. rewrite Nat2Z.inj_succ. apply Z.pow_succ_r. lia. Qed.

Lemma length_fixed (k : nat) (n : Z) : String.length (fixed k n) = k.
Proof. revert n. induction k as [|k IH]; intros n; simpl; [reflexivity | now rewrite IH]. Qed.

Lemma fixed_zero (k : nat) : fixed k 0 = Py.zeros k.
Proof.
  induction k as [|k IH]; simpl; [reflexivity|].
  rewrite Z.div_0_l, Z.mod_0_l, IH by (pose proof (pow10_pos k); lia).
  reflexivity.
Qed.

(** The same numeral, read from its last digit. *)
Lemma fixed_snoc (k : nat) (n : Z) :
  0 <= n < 10 ^ Z.of_nat (S k) ->
  fixed (S k) n = fixed k (n / 10) ++ String (Py.digit (n mod 10)) "".
Proof.
  revert n. induction k as [|k IH]; intros n Hn.
  - change (10 ^ Z.of_nat 1) with 10 in Hn. simpl.
    change (10 ^ 0) with 1. rewrite Z.div_1_r, Z.mod_small by lia. reflexivity.
  - assert (HP := pow10_pos k).
    change (fixed (S (S k)) n)
      with (String (Py.digit (n / 10 ^ Z.of_nat (S k)))
                   (fixed (S k) (n mod 10 ^ Z.of_nat (S k)))).
    rewrite IH by (apply Z.mod_pos_bound; rewrite pow10_S; lia).
    change (fixed (S k) (n / 10))
      with (String (Py.digit (n / 10 / 10 ^ Z.of_nat k))
                   (fixed k ((n / 10) mod 10 ^ Z.of_nat k))).
    rewrite pow10_S.
    rewrite Z.div_div by lia.
    rewrite (Z.rem_mul_r n 10 (10 ^ Z.of_nat k)) by lia.
    replace ((n mod 10 + 10 * ((n / 10) mod 10 ^ Z.of_nat k)) / 10)
      with ((n / 10) mod 10 ^ Z.of_nat k).
    2:{ rewrite Z.mul_comm, Z.div_add by lia.
        rewrite (Z.div_small (n mod 10)) by (apply Z.mod_pos_bound; lia). lia. }
    replace ((n mod 10 + 10 * ((n / 10) mod 10 ^ Z.of_nat k)) mod 10)
      with (n mod 10).
    2:{ rewrite Z.mul_comm, Z.mod_add by lia. rewrite Z.mod_mod by lia. reflexivity. }
    reflexivity.
Qed.

(** Zero-filling the numeral of a number that fits gives it on [k] digits. *)
Lemma zfill_decimal (k : nat) (n : Z) :
  0 <= n < 10 ^ Z.of_nat (S k) ->
  Py.zfill (S k) (Py.decimal n) = fixed (S k) n.
Proof.
  revert n. induction k as [|k IH]; intros n Hn.
  - change (10 ^ Z.of_nat 1) with 10 in Hn.
    rewrite decimal_lt10 by assumption. simpl.
    change (10 ^ 0) with 1. rewrite Z.div_1_r. reflexivity.
  - rewrite fixed_snoc by assumption.
    destruct (Z.lt_ge_cases n 10) as [Hlt|Hge].
    + rewrite decimal_lt10, Z.div_small, Z.mod_small, fixed_zero by lia.
      reflexivity.
    + rewrite decimal_ge10 by assumption.
      rewrite <- IH.
      2:{ rewrite pow10_S in Hn. split; [apply Z.div_pos; lia|].
          apply Z.div_lt_upper_bound; lia. }
      unfold Py.zfill. rewrite length_append, append_assoc. simpl String.length.
      replace (S (S k) - (String.length (Py.decimal (n / 10)) + 1))%nat
        with (S k - String.length (Py.decimal (n / 10)))%nat by lia.
      reflexivity.
Qed.

Lemma format_0d_fixed (k : nat) (n : Z) :
  0 <= n < 10 ^ Z.of_nat (S k) -> Py.format_0d (S k) n = fixed (S k) n.
Proof.
  intros Hn. unfold Py.format_0d.
  destruct (Z.ltb_spec n 0); [lia|]. apply zfill_decimal; assumption.
Qed.

(** A number too large for the width keeps all its digits. *)
Lemma format_0d_2_wide (n : Z) :
  100 <= n -> (3 <= String.length (Py.format_0d 2 n))%nat.
Proof.
  intros Hn. unfold Py.format_0d, Py.zfill.
  destruct (Z.ltb_spec n 0); [lia|].
  rewrite length_append. pose proof (decimal_length_ge100 n Hn). lia.
Qed.

Lemma format_0d_negative (width : nat) (n : Z) :
  n < 0 -> exists rest, Py.format_0d width n = String "-" rest.
Proof.
  intros Hn. unfold Py.format_0d.
  destruct (Z.ltb_spec n 0); [eexists; reflexivity | lia].
Qed.

(** Numerals of one width are ordered as their numbers. *)
Lemma compare_fixed (k : nat) (a b : Z) (r1 r2 : string) :
  0 <= a < 10 ^ Z.of_nat k -> 0 <= b < 10 ^ Z.of_nat k ->
  String.compare (fixed k a ++ r1) (fixed k b ++ r2)
  = match (a ?= b)%Z with
    | Eq => String.compare r1 r2
    | c => c
    end.
Proof.
  revert a b. induction k as [|k IH]; intros a b Ha Hb.
  - change (10 ^ Z.of_nat 0) with 1 in Ha, Hb.
    replace a with 0 by lia. replace b with 0 by lia. reflexivity.
  - assert (HP := pow10_pos k). rewrite pow10_S in Ha, Hb.
    set (P := 10 ^ Z.of_nat k) in *.
    assert (Ea := Z.div_mod a P ltac:(lia)).
    assert (Eb := Z.div_mod b P ltac:(lia)).
    assert (Ra := Z.mod_pos_bound a P HP).
    assert (Rb := Z.mod_pos_bound b P HP).
    assert (Qa : 0 <= a / P < 10).
    { split; [apply Z.div_pos; lia | apply Z.div_lt_upper_bound; lia]. }
    assert (Qb : 0 <= b / P < 10).
    { split; [apply Z.div_pos; lia | apply Z.div_lt_upper_bound; lia]. }
    simpl. fold P. rewrite compare_digit, IH by assumption.
    destruct (Z.compare_spec (a / P) (b / P)) as [E|L|G].
    + destruct (Z.compare_spec (a mod P) (b mod P)) as [E'|L'|G'].
      * replace (a ?= b)%Z with Eq; [reflexivity|].
        symmetry. apply Z.compare_eq_iff. congruence.
      * replace (a ?= b)%Z with Lt; [reflexivity|].
        symmetry. apply Z.compare_lt_iff. rewrite Ea, Eb, E. lia.
      * replace (a ?= b)%Z with Gt; [reflexivity|].
        symmetry. apply Z.compare_gt_iff. rewrite Ea, Eb, E. lia.
    + replace (a ?= b)%Z with Lt; [reflexivity|].
      symmetry. apply Z.compare_lt_iff. nia.
    + replace (a ?= b)%Z with Gt; [reflexivity|].
      symmetry. apply Z.compare_gt_iff. nia.
Qed.

(** [k] digit classes take up a numeral of width [k]. *)
Lemma fullmatch_fixed (k : nat) (n : Z) (ps : list pat) (s : string) :
  0 <= n < 10 ^ Z.of_nat k ->
  fullmatch (repeat Digit k ++ ps) (fixed k n ++ s) = fullmatch ps s.
Proof.
  revert n. induction k as [|k IH]; intros n Hn; [reflexivity|].
  assert (HP := pow10_pos k). rewrite pow10_S in Hn.
  simpl. rewrite is_digit_digit, IH.
  - reflexivity.
  - apply Z.mod_pos_bound; assumption.
  - split; [apply Z.div_pos; lia | apply Z.div_lt_upper_bound; lia].
Qed.

Lemma fullmatch_length (ps : list pat) (s : string) :
  fullmatch ps s = true -> String.length s = List.length ps.
Proof.
  revert s. induction ps as [|p ps IH]; intros [|c s]; simpl; try discriminate.
  - reflexivity.
  - intros H. apply andb_prop in H. destruct H as [_ H]. now rewrite (IH s H).
Qed.

End Fixed.

(** ** Time codes *)

Section TimeCode.

Lemma hours_bound (t : Z) : 0 <= t < 360000000 -> 0 <= t / 3600000 < 100.
Proof. intros Ht. Z.div_mod_to_equations. lia. Qed.

(** Below a hundred hours every field has its own width. *)
Lemma time_code_fixed (t : Z) :
  0 <= t < 360000000 ->
  time_code t
  = fixed 2 (t / 3600000) ++ ":" ++ fixed 2 (t / 60000 mod 60) ++ ":"
      ++ fixed 2 (t / 1000 mod 60) ++ "," ++ fixed 3 (t mod 1000) ++ "".
Proof.
  intros Ht. destruct (time_fields t) as (_ & Bm & Bc & Bf).
  pose proof (hours_bound t Ht) as Bh.
  unfold time_code.
  rewrite !format_0d_fixed, append_nil_r; try reflexivity.
  all: first [change (10 ^ Z.of_nat 2) with 100; lia
             | change (10 ^ Z.of_nat 3) with 1000; lia].
Qed.

Lemma time_code_matches (t : Z) :
  0 <= t < 360000000 -> fullmatch time_code_pattern (time_code t) = true.
Proof.
  intros Ht. destruct (time_fields t) as (_ & Bm & Bc & Bf).
  pose proof (hours_bound t Ht) as Bh.
  rewrite time_code_fixed by assumption.
  change time_code_pattern
    with (repeat Digit 2 ++ Lit ":" :: repeat Digit 2 ++ Lit ":" :: repeat Digit 2
            ++ Lit "," :: repeat Digit 3 ++ [])%list.
  rewrite fullmatch_fixed by (change (10 ^ Z.of_nat 2) with 100; lia).
  cbn [fullmatch append pat_ok Ascii.eqb Bool.eqb andb].
  rewrite fullmatch_fixed by (change (10 ^ Z.of_nat 2) with 100; lia).
  cbn [fullmatch append pat_ok Ascii.eqb Bool.eqb andb].
  rewrite fullmatch_fixed by (change (10 ^ Z.of_nat 2) with 100; lia).
  cbn [fullmatch append pat_ok Ascii.eqb Bool.eqb andb].
  rewrite fullmatch_fixed by (change (10 ^ Z.of_nat 3) with 1000; lia).
  reflexivity.
Qed.

(** From a hundred hours on the code is longer than the pattern. *)
Lemma time_code_too_long (t : Z) :
  360000000 <= t -> fullmatch time_code_pattern (time_code t) = false.
Proof.
  intros Ht. destruct (fullmatch time_code_pattern (time_code t)) eqn:E; [|reflexivity].
  apply fullmatch_length in E. exfalso.
  unfold time_code in E. rewrite !length_append in E.
  assert (100 <= t / 3600000) by (Z.div_mod_to_equations; lia).
  pose proof (format_0d_2_wide (t / 3600000) ltac:(assumption)).
  destruct (time_fields t) as (_ & Bm & Bc & Bf).
  set (hours := Py.format_0d 2 (t / 3600000)) in *.
  rewrite !format_0d_fixed, !length_fixed in E.
  - simpl in E. lia.
  - change (10 ^ Z.of_nat 3) with 1000; lia.
  - change (10 ^ Z.of_nat 2) with 100; lia.
  - change (10 ^ Z.of_nat 2) with 100; lia.
Qed.

Lemma compare_same_head (c : ascii) (s1 s2 : string) :
  String.compare (String c s1) (String c s2) = String.compare s1 s2.
Proof. simpl. unfold Ascii.compare. rewrite N.compare_refl. reflexivity. Qed.

(** Below a hundred hours, time codes are ordered as their milliseconds. *)
Lemma compare_time_code (t1 t2 : Z) :
  0 <= t1 < 360000000 -> 0 <= t2 < 360000000 ->
  String.compare (time_code t1) (time_code t2) = (t1 ?= t2)%Z.
Proof.
  intros H1 H2.
  destruct (time_fields t1) as (E1 & Bm1 & Bc1 & Bf1).
  destruct (time_fields t2) as (E2 & Bm2 & Bc2 & Bf2).
  pose proof (hours_bound t1 H1) as Bh1.
  pose proof (hours_bound t2 H2) as Bh2.
  rewrite !time_code_fixed by assumption.
  set (h1 := t1 / 3600000) in *. set (m1 := t1 / 60000 mod 60) in *.
  set (c1 := t1 / 1000 mod 60) in *. set (f1 := t1 mod 1000) in *.
  set (h2 := t2 / 3600000) in *. set (m2 := t2 / 60000 mod 60) in *.
  set (c2 := t2 / 1000 mod 60) in *. set (f2 := t2 mod 1000) in *.
  rewrite compare_fixed by (change (10 ^ Z.of_nat 2) with 100; lia).
  cbn [append]. rewrite compare_same_head.
  rewrite compare_fixed by (change (10 ^ Z.of_nat 2) with 100; lia).
  cbn [append]. rewrite compare_same_head.
  rewrite compare_fixed by (change (10 ^ Z.of_nat 2) with 100; lia).
  cbn [append]. rewrite compare_same_head.
  rewrite compare_fixed by (change (10 ^ Z.of_nat 3) with 1000; lia).
  cbn [String.compare].
  symmetry.
  destruct (Z.compare_spec h1 h2);
    [destruct (Z.compare_spec m1 m2);
       [destruct (Z.compare_spec c1 c2);
          [destruct (Z.compare_spec f1 f2)|..]|..]|..];
    first [apply Z.compare_eq_iff | apply Z.compare_lt_iff | apply Z.compare_gt_iff];
    lia.
Qed.

Lemma millis_nonneg (s : Q) : (0 <= s)%Q -> 0 <= millis s.
Proof.
  intros Hs. unfold millis. change 0 with (Qfloor 0).
  apply Qfloor_resp_le. lra.
Qed.

Lemma millis_mono (s1 s2 : Q) : (s1 <= s2)%Q -> millis s1 <= millis s2.
Proof. intros Hs. unfold millis. apply Qfloor_resp_le. lra. Qed.

Lemma millis_lt (s : Q) (k : Z) :
  (s < inject_Z k)%Q <-> millis s < 1000 * k.
Proof.
  destruct (floor_bounds (s * 1000)) as [Lo Hi]. fold (millis s) in Lo, Hi.
  split; intros H.
  - assert (A : (inject_Z (millis s) < inject_Z (1000 * k))%Q).
    { rewrite inject_Z_mult. change (inject_Z 1000) with 1000%Q. lra. }
    now rewrite <- Zlt_Qlt in A.
  - assert (A : (inject_Z (millis s + 1) <= inject_Z (1000 * k))%Q).
    { rewrite <- Zle_Qle. lia. }
    rewrite inject_Z_plus, inject_Z_mult in A.
    change (inject_Z 1000) with 1000%Q in A. change (inject_Z 1) with 1%Q in A. lra.
Qed.

(** Equal numbers, however written, get the same time code. *)
Lemma format_time_compat (s1 s2 : Q) : (s1 == s2)%Q -> format_time s1 = format_time s2.
Proof.
  intros E. rewrite !format_time_millis. unfold millis. now rewrite E.
Qed.

End TimeCode.

(** ** The time-code formatter *)

Section FormatTime.

Local Open Scope Q_scope.

Lemma millis_range (seconds : Q) :
  0 <= seconds -> seconds < 360000 -> (0 <= millis seconds < 360000000)%Z.
Proof.
  intros H0 H1. split; [apply millis_nonneg; assumption|].
  change 360000000%Z with (1000 * 360000)%Z. apply millis_lt. exact H1.
Qed.

(** C1, as stated, fails: at 360000 seconds (a hundred hours) the hours
    field takes three digits, and the code does not match
    [\d{2}:\d{2}:\d{2},\d{3}]. *)
Lemma format_time_pattern_counterexample :
  0 <= 360000
  /\ format_time 360000 = "100:00:00,000"%string
  /\ fullmatch time_code_pattern (format_time 360000) = false.
Proof. repeat split. discriminate. Qed.

(** C1, amended: for non-negative seconds the string of [format_time]
    matches [\d{2}:\d{2}:\d{2},\d{3}] exactly when the seconds are below
    360000, that is below a hundred hours. *)
Theorem format_time_pattern (seconds : Q) :
  0 <= seconds ->
  (fullmatch time_code_pattern (format_time seconds) = true <-> seconds < 360000).
Proof.
  intros H0. rewrite format_time_millis. split.
  - intros Hm. destruct (Qlt_le_dec seconds 360000) as [|Hge]; [assumption|].
    exfalso. rewrite time_code_too_long in Hm; [discriminate|].
    destruct (Z.lt_ge_cases (millis seconds) (1000 * 360000)) as [Hlt|]; [|lia].
    apply millis_lt in Hlt. change (inject_Z 360000) with 360000 in Hlt. lra.
  - intros H1. apply time_code_matches. apply millis_range; assumption.
Qed.

Lemma format_time_pattern_witness :
  0 <= 7323 # 2
  /\ (fullmatch time_code_pattern (format_time (7323 # 2)) = true <-> 7323 # 2 < 360000).
Proof.
  split; [discriminate|]. apply (format_time_pattern (7323 # 2)). discriminate.
Defined.

(** C8, as stated, fails: 359999 <= 360000, yet ["99:59:59,000"] is
    lexicographically above ["100:00:00,000"]. *)
Lemma format_time_monotone_counterexample :
  0 <= 359999 /\ 359999 <= 360000
  /\ format_time 359999 = "99:59:59,000"%string
  /\ format_time 360000 = "100:00:00,000"%string
  /\ String.leb (format_time 359999) (format_time 360000) = false.
Proof. repeat split; discriminate. Qed.

(** C8, amended: for 0 <= s1 <= s2 < 360000 (below a hundred hours), the
    string of [format_time] for [s1] is lexicographically less than or equal
    to the one for [s2]. *)
Theorem format_time_monotone (s1 s2 : Q) :
  0 <= s1 -> s1 <= s2 -> s2 < 360000 ->
  String.leb (format_time s1) (format_time s2) = true.
Proof.
  intros H0 H12 H2.
  assert (R1 : (0 <= millis s1 < 360000000)%Z) by (apply millis_range; lra).
  assert (R2 : (0 <= millis s2 < 360000000)%Z) by (apply millis_range; lra).
  pose proof (millis_mono s1 s2 H12) as Hm.
  unfold String.leb. rewrite !format_time_millis, compare_time_code by assumption.
  destruct (Z.compare_spec (millis s1) (millis s2)); try reflexivity. lia.
Qed.

Lemma format_time_monotone_witness :
  0 <= 125 # 100 /\ 125 # 100 <= 7323 # 2 /\ 7323 # 2 < 360000
  /\ String.leb (format_time (125 # 100)) (format_time (7323 # 2)) = true.
Proof.
  split; [discriminate|]. split; [discriminate|]. split; [reflexivity|].
  apply (format_time_monotone (125 # 100) (7323 # 2)); discriminate || reflexivity.
Defined.

(** C9, as stated, fails: for -1 the formatter raises nothing and returns
    ["-1:59:59,000"], which is no time code. *)
Lemma format_time_negative_counterexample :
  -1 < 0
  /\ format_time_outcome (-1) = Return "-1:59:59,000"%string
  /\ (forall e, format_time_outcome (-1) <> Raise e)
  /\ fullmatch time_code_pattern (format_time (-1)) = false.
Proof. repeat split. intros e; discriminate. Qed.

(** C9, amended: for every negative input the formatter raises no error:
    it returns a string that starts with a minus sign (the hours are the
    floor of seconds / 3600, below zero) and so is no time code. *)
Theorem format_time_negative (seconds : Q) :
  seconds < 0 ->
  exists rest,
    format_time_outcome seconds = Return (String "-" rest)
    /\ fullmatch time_code_pattern (format_time seconds) = false.
Proof.
  intros Hneg. unfold format_time_outcome. rewrite format_time_millis.
  assert (Hm : (millis seconds < 0)%Z).
  { change 0%Z with (1000 * 0)%Z. apply millis_lt. exact Hneg. }
  assert (Hh : (millis seconds / 3600000 < 0)%Z) by (Z.div_mod_to_equations; lia).
  destruct (format_0d_negative 2 _ Hh) as [rest E].
  unfold time_code. rewrite E. cbn [append]. eexists. split; reflexivity.
Qed.

Lemma format_time_negative_witness :
  -1 # 2 < 0
  /\ exists rest,
       format_time_outcome (-1 # 2) = Return (String "-" rest)
       /\ fullmatch time_code_pattern (format_time (-1 # 2)) = false.
Proof.
  split; [reflexivity|]. apply (format_time_negative (-1 # 2)). reflexivity.
Defined.

End FormatTime.

(** ** The document builder *)

Section Document.

Lemma fold_srt_step (entries : list (Z * segment)) (srt_text : list string) :
  fold_left srt_step entries srt_text = (srt_text ++ flat_map srt_block entries)%list.
Proof.
  revert srt_text. induction entries as [|[i seg] entries IH]; intros srt_text; simpl.
  - now rewrite app_nil_r.
  - rewrite IH. unfold srt_step, srt_block. simpl.
    rewrite <- !app_assoc. reflexivity.
Qed.

Lemma srt_lines_blocks (segments : list segment) :
  srt_lines segments = flat_map srt_block (enumerate segments).
Proof. unfold srt_lines. now rewrite fold_srt_step. Qed.

Lemma blocks_flat_map (entries : list (Z * segment)) :
  blocks (flat_map srt_block entries)
  = map (fun e => Block (Py.str (fst e + 1))
                        (format_time (start (snd e)) ++ " --> " ++ format_time (end_ (snd e)))
                        (Py.strip (text (snd e))) "") entries.
Proof. induction entries as [|e entries IH]; simpl; [reflexivity | now rewrite IH]. Qed.

Lemma length_flat_map_block (entries : list (Z * segment)) :
  List.length (flat_map srt_block entries) = (4 * List.length entries)%nat.
Proof. induction entries as [|e entries IH]; simpl; [reflexivity | rewrite IH; lia]. Qed.

Lemma enumerate_length {A} (items : list A) :
  List.length (enumerate items) = List.length items.
Proof.
  unfold enumerate. rewrite length_combine, length_map, length_seq. lia.
Qed.

Lemma combine_fst {A B} (l : list A) (l' : list B) :
  List.length l = List.length l' -> map fst (combine l l') = l.
Proof.
  revert l'. induction l as [|a l IH]; intros [|b l'] H; simpl in *; try discriminate.
  - reflexivity.
  - f_equal. apply IH. lia.
Qed.

Lemma combine_snd {A B} (l : list A) (l' : list B) :
  List.length l = List.length l' -> map snd (combine l l') = l'.
Proof.
  revert l'. induction l as [|a l IH]; intros [|b l'] H; simpl in *; try discriminate.
  - reflexivity.
  - f_equal. apply IH. lia.
Qed.

Lemma enumerate_fst {A} (items : list A) :
  map fst (enumerate items) = map Z.of_nat (seq 0 (List.length items)).
Proof.
  unfold enumerate. apply combine_fst. now rewrite length_map, length_seq.
Qed.

Lemma enumerate_snd {A} (items : list A) : map snd (enumerate items) = items.
Proof.
  unfold enumerate. apply combine_snd. now rewrite length_map, length_seq.
Qed.

(** The index lines of [n] numbered entries are the numerals of [1..n]. *)
Lemma enumerate_indices {A} (items : list A) :
  map (fun e => Py.str (fst e + 1)) (enumerate items)
  = map (fun k => Py.str (Z.of_nat k)) (seq 1 (List.length items)).
Proof.
  rewrite <- (map_map fst (fun i => Py.str (i + 1))), enumerate_fst.
  rewrite <- seq_shift, !map_map. apply map_ext. intros k. f_equal. lia.
Qed.

Lemma join_block (a b c : string) (rest : list string) :
  Py.join newline (a :: b :: c :: "" :: rest)
  = a ++ newline ++ b ++ newline ++ c ++ newline
      ++ match rest with
         | [] => ""
         | _ => newline ++ Py.join newline rest
         end.
Proof. destruct rest; reflexivity. Qed.

Lemma join_render (entries : list (Z * segment)) :
  Py.join newline (flat_map srt_block entries)
  = Py.join newline (map render_block entries).
Proof.
  induction entries as [|e entries IH]; [reflexivity|].
  change (flat_map srt_block (e :: entries))
    with (Py.str (fst e + 1)
          :: (format_time (start (snd e)) ++ " --> " ++ format_time (end_ (snd e)))
          :: Py.strip (text (snd e)) :: "" :: flat_map srt_block entries).
  rewrite join_block. destruct entries as [|e' entries].
  - simpl. unfold render_block. rewrite !append_assoc. reflexivity.
  - rewrite IH.
    change (flat_map srt_block (e' :: entries))
      with (Py.str (fst e' + 1) :: (tl (srt_block e') ++ flat_map srt_block entries)%list).
    change (Py.join newline (map render_block (e :: e' :: entries)))
      with (render_block e ++ newline ++ Py.join newline (map render_block (e' :: entries))).
    unfold render_block at 2. rewrite !append_assoc. reflexivity.
Qed.

End Document.

(** ** The coarse duration *)

Section Duration.

(** The three numbers of the coarse duration, from the whole seconds. *)
Lemma coarse_duration_fields (d : Q) :
  coarse_duration d
  = Py.str (Qfloor d / 3600) ++ ":" ++ Py.str (Qfloor d / 60 mod 60) ++ ":"
      ++ Py.str (Qfloor d mod 60).
Proof.
  destruct (floor_bounds d) as [Lo Hi].
  set (D := Qfloor d) in *.
  assert (E : D = 3600 * (D / 3600) + 60 * (D / 60 mod 60) + D mod 60)
    by (Z.div_mod_to_equations; lia).
  assert (Bm : 0 <= D / 60 mod 60 <= 59) by (Z.div_mod_to_equations; lia).
  assert (Bc : 0 <= D mod 60 <= 59) by (Z.div_mod_to_equations; lia).
  assert (E60 : D / 60 = 60 * (D / 3600) + D / 60 mod 60)
    by (Z.div_mod_to_equations; lia).
  set (h := D / 3600) in *. set (m := D / 60 mod 60) in *. set (c := D mod 60) in *.
  assert (EQ : (inject_Z D == 3600 * inject_Z h + 60 * inject_Z m + inject_Z c)%Q).
  { rewrite E at 1. rewrite !inject_Z_plus, !inject_Z_mult. reflexivity. }
  assert (Qm0 : (0 <= inject_Z m)%Q) by (change 0%Q with (inject_Z 0); rewrite <- Zle_Qle; lia).
  assert (Qm1 : (inject_Z m <= 59)%Q) by (change 59%Q with (inject_Z 59); rewrite <- Zle_Qle; lia).
  assert (Qc0 : (0 <= inject_Z c)%Q) by (change 0%Q with (inject_Z 0); rewrite <- Zle_Qle; lia).
  assert (Qc1 : (inject_Z c <= 59)%Q) by (change 59%Q with (inject_Z 59); rewrite <- Zle_Qle; lia).
  rewrite EQ in Lo, Hi.
  unfold coarse_duration, Py.mod_, Py.floordiv.
  assert (Eh : Qfloor (d / 3600) = h) by (apply floor_div; lra).
  assert (Em : Qfloor ((d - 3600 * inject_Z h) / 60) = m) by (apply floor_div; lra).
  assert (E60' : Qfloor (d / 60) = (60 * h + m)%Z).
  { apply floor_div; rewrite ?inject_Z_plus, ?inject_Z_mult;
      change (inject_Z 60) with 60%Q; lra. }
  rewrite Eh, Em, E60', !int_inject_Z.
  rewrite int_nonneg.
  - replace (Qfloor (d - 60 * inject_Z (60 * h + m))) with c; [reflexivity|].
    symmetry. apply floor_unique; rewrite ?inject_Z_plus, ?inject_Z_mult;
      change (inject_Z 60) with 60%Q; lra.
  - rewrite ?inject_Z_plus, ?inject_Z_mult; change (inject_Z 60) with 60%Q; lra.
Qed.

(** A positive number's numeral starts with a digit from 1 to 9. *)
Lemma decimal_head (n : Z) :
  1 <= n -> exists d rest, 1 <= d < 10 /\ Py.decimal n = String (Py.digit d) rest.
Proof.
  intros Hn. assert (H0 : 0 <= n) by lia. revert Hn. pattern n.
  apply decimal_ind; [| |assumption]; clear n H0.
  - intros n Hn H1. exists n, "". split; [lia|]. apply decimal_lt10; assumption.
  - intros n Hn IH _.
    destruct IH as (d & rest & Hd & E).
    { apply Z.div_le_lower_bound; lia. }
    exists d, (rest ++ String (Py.digit (n mod 10)) "").
    split; [assumption|]. rewrite decimal_ge10, E by assumption. reflexivity.
Qed.

(** [str] pads nothing: no numeral has a zero before other digits. *)
Lemma str_not_padded (n : Z) : zero_padded (Py.str n) = false.
Proof.
  unfold Py.str. destruct (Z.ltb_spec n 0); [reflexivity|].
  destruct (Z.eq_dec n 0) as [->|Hz]; [reflexivity|].
  destruct (decimal_head n ltac:(lia)) as (d & rest & Hd & E). rewrite E.
  assert (C : d = 1 \/ d = 2 \/ d = 3 \/ d = 4 \/ d = 5 \/ d = 6 \/ d = 7 \/ d = 8 \/ d = 9)
    by lia.
  repeat (destruct C as [->|C]; [reflexivity|]). subst d. reflexivity.
Qed.

(** C7: [get_video_duration] returns hours, minutes and seconds as plain
    numerals joined by colons: the three numbers are the whole seconds
    divided by 3600, the whole minutes modulo 60 and the whole seconds
    modulo 60; no numeral is zero-padded; the hours numeral reads back as
    the whole number of hours, whatever its size (nothing wraps); 3661
    seconds give ["1:1:1"] and 59 seconds give ["0:0:59"]. *)
Theorem get_video_duration_coarse (w : world) (video_path : path) (video : clip) :
  VideoFileClip w video_path = inr video ->
  (0 <= duration video)%Q ->
  let d := Qfloor (duration video) in
  result (get_video_duration w video_path) = Return (coarse_duration (duration video))
  /\ coarse_duration (duration video)
     = Py.str (d / 3600) ++ ":" ++ Py.str (d / 60 mod 60) ++ ":" ++ Py.str (d mod 60)
  /\ zero_padded (Py.str (d / 3600)) = false
  /\ zero_padded (Py.str (d / 60 mod 60)) = false
  /\ zero_padded (Py.str (d mod 60)) = false
  /\ numeral_value 0 (Py.str (d / 3600)) = d / 3600
  /\ coarse_duration 3661 = "1:1:1"
  /\ coarse_duration 59 = "0:0:59"
  /\ coarse_duration 360000 = "100:0:0".
Proof.
  intros Hopen Hd d.
  split.
  { unfold get_video_duration, with_VideoFileClip. rewrite Hopen. reflexivity. }
  split; [apply coarse_duration_fields|].
  repeat (split; [apply str_not_padded|]).
  split; [|repeat split].
  apply numeral_value_str. apply Z.div_pos; [|lia].
  subst d. change 0 with (Qfloor 0). apply Qfloor_resp_le. assumption.
Qed.

Lemma get_video_duration_coarse_witness :
  VideoFileClip example_world (Some "talk.mp4")
  = inr {| audio := Some AudioStream; duration := 150 |}
  /\ (0 <= 150)%Q
  /\ result (get_video_duration example_world (Some "talk.mp4")) = Return "0:2:30".
Proof.
  split; [reflexivity|]. split; [discriminate|].
  apply (get_video_duration_coarse example_world (Some "talk.mp4")
           {| audio := Some AudioStream; duration := 150 |}).
  - reflexivity.
  - discriminate.
Defined.

End Duration.

(** ** Transcription *)

Section Transcribe.

Variable w : world.
Variable video_path : path.

(** The video cannot be opened. *)
Lemma transcribe_open_error (e : exn) :
  VideoFileClip w video_path = inl e -> class e <> BaseException ->
  transcribe w video_path
  = ([Printed (transcribe_prefix (class e) ++ message e)], Return None).
Proof.
  intros Hopen Hclass. unfold transcribe, audio_gate, with_VideoFileClip.
  rewrite Hopen. simpl. destruct (class e); [reflexivity | reflexivity | congruence].
Qed.

(** Opening the video raises an exception outside [Exception]. *)
Lemma transcribe_open_escape (e : exn) :
  VideoFileClip w video_path = inl e -> class e = BaseException ->
  transcribe w video_path = ([], Raise e).
Proof.
  intros Hopen Hclass. unfold transcribe, audio_gate, with_VideoFileClip.
  rewrite Hopen. simpl. rewrite Hclass. reflexivity.
Qed.

(** The video has no audio stream. *)
Lemma transcribe_silent (video : clip) :
  VideoFileClip w video_path = inr video -> audio video = None ->
  transcribe w video_path
  = ([VideoOpened video_path; VideoClosed video_path;
      Printed ("Error transcribing video: " ++ no_audio_message)], Return None).
Proof.
  intros Hopen Haudio. unfold transcribe, audio_gate, with_VideoFileClip.
  rewrite Hopen. simpl. rewrite Haudio. reflexivity.
Qed.

(** The whisper model raises. *)
Lemma transcribe_whisper_error (video : clip) (a : AudioFileClip) (e : exn) :
  VideoFileClip w video_path = inr video -> audio video = Some a ->
  whisper_model_transcribe w video_path = inl e -> class e <> BaseException ->
  transcribe w video_path
  = ([VideoOpened video_path; VideoClosed video_path; WhisperCalled video_path;
      Printed (transcribe_prefix (class e) ++ message e)], Return None).
Proof.
  intros Hopen Haudio Hwhisper Hclass.
  unfold transcribe, audio_gate, with_VideoFileClip.
  rewrite Hopen. simpl. rewrite Haudio. simpl. rewrite Hwhisper. simpl.
  destruct (class e); [reflexivity | reflexivity | congruence].
Qed.

(** The whisper model raises an exception outside [Exception]. *)
Lemma transcribe_whisper_escape (video : clip) (a : AudioFileClip) (e : exn) :
  VideoFileClip w video_path = inr video -> audio video = Some a ->
  whisper_model_transcribe w video_path = inl e -> class e = BaseException ->
  transcribe w video_path
  = ([VideoOpened video_path; VideoClosed video_path; WhisperCalled video_path],
     Raise e).
Proof.
  intros Hopen Haudio Hwhisper Hclass.
  unfold transcribe, audio_gate, with_VideoFileClip.
  rewrite Hopen. simpl. rewrite Haudio. simpl. rewrite Hwhisper. simpl.
  rewrite Hclass. reflexivity.
Qed.

Lemma class_cases (e : exn) : class e = BaseException \/ class e <> BaseException.
Proof. destruct (class e); [right | right | left]; congruence. Qed.

(** The whisper model returns. *)
Lemma transcribe_success (video : clip) (a : AudioFileClip) (r : whisper_result) :
  VideoFileClip w video_path = inr video -> audio video = Some a ->
  whisper_model_transcribe w video_path = inr r ->
  transcribe w video_path
  = ([VideoOpened video_path; VideoClosed video_path; WhisperCalled video_path],
     Return (Some r)).
Proof.
  intros Hopen Haudio Hwhisper. unfold transcribe, audio_gate, with_VideoFileClip.
  rewrite Hopen. simpl. rewrite Haudio. simpl. rewrite Hwhisper. reflexivity.
Qed.

End Transcribe.

(** ** What [transcribe] and [generate_summary] do to the world *)

Section Pipeline.


(** C5: when the video has no audio stream, the check made before the
    model runs raises the [ValueError] "File does not contain an audio
    stream.", the whisper model is not called at all, and [transcribe]
    reports that message and gives up. *)
Theorem transcribe_no_audio (w : world) (video_path : path) (video : clip) :
  VideoFileClip w video_path = inr video ->
  audio video = None ->
  result (audio_gate w video_path)
  = Raise (Exn ValueError "File does not contain an audio stream.")
  /\ (forall p, ~ In (WhisperCalled p) (events (transcribe w video_path)))
  /\ events (transcribe w video_path)
     = [VideoOpened video_path; VideoClosed video_path;
        Printed "Error transcribing video: File does not contain an audio stream."]
  /\ result (transcribe w video_path) = Return None.
Proof.
  intros Hopen Haudio.
  rewrite (transcribe_silent w video_path video Hopen Haudio).
  split.
  { unfold audio_gate, with_VideoFileClip. rewrite Hopen. simpl. now rewrite Haudio. }
  split; [|split; reflexivity].
  intros p [H|[H|[H|[]]]]; discriminate.
Qed.

Lemma transcribe_no_audio_witness :
  VideoFileClip silent_world (Some "silent.mp4") = inr {| audio := None; duration := 150 |}
  /\ audio {| audio := None; duration := 150 |} = None
  /\ result (audio_gate silent_world (Some "silent.mp4"))
     = Raise (Exn ValueError "File does not contain an audio stream.")
  /\ (forall p, ~ In (WhisperCalled p) (events (transcribe silent_world (Some "silent.mp4")))).
Proof.
  split; [reflexivity|]. split; [reflexivity|].
  pose proof (transcribe_no_audio silent_world (Some "silent.mp4")
                {| audio := None; duration := 150 |} eq_refl eq_refl) as (Hgate & Hcalls & _).
  split; [exact Hgate | exact Hcalls].
Defined.







(** C4: whatever the transcript and the duration string, [generate_summary]
    makes one call of the chat service, with two messages: the system
    message, whose content is the constant [system_prompt] (the same for
    any other transcript and duration), and one user message, whose content
    contains the duration string and the whole transcript. *)
Theorem generate_summary_request (w : world) (transcript length : string) :
  let user_content :=
    "The following transcript is for a video of length " ++ length ++ ":" ++ newline
      ++ " " ++ transcript in
  let sent := summary_request transcript length in
  events (generate_summary w transcript length) = [ChatCalled sent]
  /\ messages sent
     = [ {| role := "system"; content := system_prompt |};
         {| role := "user"; content := user_content |} ]
  /\ filter (fun m => String.eqb (role m) "system") (messages sent)
     = [ {| role := "system"; content := system_prompt |} ]
  /\ filter (fun m => String.eqb (role m) "user") (messages sent)
     = [ {| role := "user"; content := user_content |} ]
  /\ (forall transcript' length',
        filter (fun m => String.eqb (role m) "system")
               (messages (summary_request transcript' length'))
        = filter (fun m => String.eqb (role m) "system") (messages sent))
  /\ contains user_content length
  /\ contains user_content transcript.
Proof.
  intros user_content sent.
  split.
  { unfold generate_summary. fold sent.
    destruct (chat_completions_create w sent) as [e|[content|]]; reflexivity. }
  do 3 (split; [reflexivity|]).
  split; [intros; reflexivity|].
  split.
  - exists "The following transcript is for a video of length ",
           (":" ++ newline ++ " " ++ transcript). reflexivity.
  - exists ("The following transcript is for a video of length " ++ length ++ ":"
            ++ newline ++ " "), "".
    subst user_content. rewrite append_nil_r, !append_assoc. reflexivity.
Qed.

End Pipeline.

(** ** Reading numerals back *)

Section Reading.

Lemma digits_only_append (s1 s2 : string) :
  digits_only (s1 ++ s2) = digits_only s1 && digits_only s2.
Proof.
  induction s1 as [|c s1 IH]; simpl; [reflexivity|].
  now rewrite IH, andb_assoc.
Qed.

Lemma digits_only_decimal (n : Z) : 0 <= n -> digits_only (Py.decimal n) = true.
Proof.
  intros Hn. pattern n. apply decimal_ind; [| |assumption]; clear n Hn.
  - intros n Hn. rewrite decimal_lt10 by assumption. simpl.
    now rewrite is_digit_digit.
  - intros n Hn IH. rewrite decimal_ge10, digits_only_append, IH by assumption.
    simpl. rewrite is_digit_digit by (apply Z.mod_pos_bound; lia). reflexivity.
Qed.

Lemma digits_only_zeros (k : nat) : digits_only (Py.zeros k) = true.
Proof. induction k as [|k IH]; simpl; [reflexivity | exact IH]. Qed.

Lemma numeral_value_zeros (k : nat) (s : string) :
  numeral_value 0 (Py.zeros k ++ s) = numeral_value 0 s.
Proof. induction k as [|k IH]; simpl; [reflexivity | exact IH]. Qed.

Lemma append_nonempty (s1 s2 : string) : s2 <> "" -> s1 ++ s2 <> "".
Proof. destruct s1; simpl; [auto | discriminate]. Qed.

Lemma decimal_not_empty (n : Z) : 0 <= n -> Py.decimal n <> "".
Proof.
  intros Hn E. pose proof (decimal_nonempty n Hn) as H. rewrite E in H. simpl in H. lia.
Qed.

Lemma writes_str (n : Z) : 0 <= n -> writes (Py.str n) n.
Proof.
  intros Hn. unfold Py.str. destruct (Z.ltb_spec n 0); [lia|].
  repeat split.
  - apply digits_only_decimal; assumption.
  - apply decimal_not_empty; assumption.
  - apply numeral_value_decimal; assumption.
Qed.

Lemma writes_format_0d (width : nat) (n : Z) : 0 <= n -> writes (Py.format_0d width n) n.
Proof.
  intros Hn. unfold Py.format_0d, Py.zfill. destruct (Z.ltb_spec n 0); [lia|].
  repeat split.
  - rewrite digits_only_append, digits_only_zeros, digits_only_decimal by assumption.
    reflexivity.
  - apply append_nonempty, decimal_not_empty; assumption.
  - rewrite numeral_value_zeros. apply numeral_value_decimal; assumption.
Qed.

Lemma span_digits_stop (ds : string) (c : ascii) (rest : string) :
  digits_only ds = true -> is_digit c = false ->
  span_digits (ds ++ String c rest) = (ds, String c rest).
Proof.
  intros Hds Hc. induction ds as [|d ds IH]; simpl in *.
  - now rewrite Hc.
  - apply andb_prop in Hds. destruct Hds as [Hd Hds].
    rewrite Hd, (IH Hds). reflexivity.
Qed.

Lemma span_digits_all (ds : string) :
  digits_only ds = true -> span_digits ds = (ds, "").
Proof.
  intros Hds. induction ds as [|d ds IH]; simpl in *; [reflexivity|].
  apply andb_prop in Hds. destruct Hds as [Hd Hds].
  rewrite Hd, (IH Hds). reflexivity.
Qed.

Lemma number_writes (s : string) (n : Z) : writes s n -> number s = Some n.
Proof.
  intros (_ & Hne & Hv). destruct s; [congruence|]. unfold number. now rewrite Hv.
Qed.

Lemma field_writes (c : ascii) (s : string) (n : Z) (rest : string) :
  is_digit c = false -> writes s n ->
  field c (s ++ String c rest) = Some (n, rest).
Proof.
  intros Hc Hw. unfold field.
  rewrite span_digits_stop by (assumption || apply Hw).
  rewrite (number_writes s n Hw). unfold expect. now rewrite Ascii.eqb_refl.
Qed.

Lemma last_field_writes (s : string) (n : Z) : writes s n -> last_field s = Some n.
Proof.
  intros Hw. unfold last_field. rewrite span_digits_all by apply Hw.
  apply number_writes; assumption.
Qed.

Lemma parse_time_code_fields (h m c f : string) (nh nm nc nf : Z) :
  writes h nh -> writes m nm -> writes c nc -> writes f nf ->
  parse_time_code (h ++ ":" ++ m ++ ":" ++ c ++ "," ++ f)
  = Some (3600000 * nh + 60000 * nm + 1000 * nc + nf).
Proof.
  intros Hh Hm Hc Hf. unfold parse_time_code.
  change (h ++ ":" ++ m ++ ":" ++ c ++ "," ++ f)
    with (h ++ String ":" (m ++ String ":" (c ++ String "," f))).
  rewrite (field_writes ":" h nh) by (reflexivity || assumption).
  rewrite (field_writes ":" m nm) by (reflexivity || assumption).
  rewrite (field_writes "," c nc) by (reflexivity || assumption).
  rewrite (last_field_writes f nf) by assumption. reflexivity.
Qed.

Lemma parse_hms_fields (h m c : string) (nh nm nc : Z) :
  writes h nh -> writes m nm -> writes c nc ->
  parse_hms (h ++ ":" ++ m ++ ":" ++ c) = Some (nh, nm, nc).
Proof.
  intros Hh Hm Hc. unfold parse_hms.
  change (h ++ ":" ++ m ++ ":" ++ c) with (h ++ String ":" (m ++ String ":" c)).
  rewrite (field_writes ":" h nh) by (reflexivity || assumption).
  rewrite (field_writes ":" m nm) by (reflexivity || assumption).
  rewrite (last_field_writes c nc) by assumption. reflexivity.
Qed.

Lemma parse_time_code_of_millis (t : Z) :
  0 <= t -> parse_time_code (time_code t) = Some t.
Proof.
  intros Ht. destruct (time_fields t) as (E & Bm & Bc & Bf).
  assert (Bh : 0 <= t / 3600000) by (apply Z.div_pos; lia).
  unfold time_code.
  rewrite (parse_time_code_fields _ _ _ _ (t / 3600000) (t / 60000 mod 60)
             (t / 1000 mod 60) (t mod 1000)).
  - f_equal. lia.
  - apply writes_format_0d; lia.
  - apply writes_format_0d; lia.
  - apply writes_format_0d; lia.
  - apply writes_format_0d; lia.
Qed.

Lemma floor_millis (s : Q) : millis s / 1000 = Qfloor s.
Proof.
  symmetry. destruct (floor_bounds (s * 1000)) as [Lo Hi]. fold (millis s) in Lo, Hi.
  set (t := millis s) in *.
  assert (E : t = 1000 * (t / 1000) + t mod 1000) by (apply Z.div_mod; lia).
  assert (B : 0 <= t mod 1000 <= 999) by (Z.div_mod_to_equations; lia).
  set (q := t / 1000) in *. set (r := t mod 1000) in *.
  assert (EQ : (inject_Z t == 1000 * inject_Z q + inject_Z r)%Q).
  { rewrite E at 1. rewrite inject_Z_plus, inject_Z_mult. reflexivity. }
  assert (R0 : (0 <= inject_Z r)%Q) by (change 0%Q with (inject_Z 0); rewrite <- Zle_Qle; lia).
  assert (R1 : (inject_Z r <= 999)%Q) by (change 999%Q with (inject_Z 999); rewrite <- Zle_Qle; lia).
  rewrite EQ in Lo, Hi.
  apply floor_unique; lra.
Qed.

End Reading.

(** ** What the two formatters keep of the seconds *)

Section Formatters.

Local Open Scope Q_scope.

(** X1: for seconds from 0 up to a thousand million, the time code reads
    back (hours, minutes, seconds and milliseconds, whatever the number of
    hour digits) as a whole number of milliseconds less than one
    millisecond away from the seconds.  (Here it is the floor of the
    milliseconds; where binary64 rounds the last product up to a whole
    number, the code prints the next millisecond, still within the
    bound.) *)
Theorem format_time_reads_back (seconds : Q) :
  0 <= seconds -> seconds < 1000000000 ->
  exists t,
    parse_time_code (format_time seconds) = Some t
    /\ inject_Z t - 1 < seconds * 1000
    /\ seconds * 1000 < inject_Z t + 1.
Proof.
  intros H0 _. exists (millis seconds).
  destruct (floor_bounds (seconds * 1000)) as [Lo Hi]. fold (millis seconds) in Lo, Hi.
  split; [|split; [lra | exact Hi]].
  rewrite format_time_millis. apply parse_time_code_of_millis.
  apply millis_nonneg; assumption.
Qed.

Lemma format_time_reads_back_witness :
  0 <= 400000 + (1 # 3) /\ 400000 + (1 # 3) < 1000000000
  /\ exists t,
       parse_time_code (format_time (400000 + (1 # 3))) = Some t
       /\ inject_Z t - 1 < (400000 + (1 # 3)) * 1000
       /\ (400000 + (1 # 3)) * 1000 < inject_Z t + 1.
Proof.
  split; [discriminate|]. split; [reflexivity|].
  apply (format_time_reads_back (400000 + (1 # 3))); discriminate || reflexivity.
Defined.

Lemma parse_coarse_duration (d : Q) :
  0 <= d ->
  parse_hms (coarse_duration d)
  = Some ((Qfloor d / 3600)%Z, (Qfloor d / 60 mod 60)%Z, (Qfloor d mod 60)%Z).
Proof.
  intros H0.
  assert (HD : (0 <= Qfloor d)%Z).
  { change 0%Z with (Qfloor 0). apply Qfloor_resp_le. assumption. }
  rewrite coarse_duration_fields.
  apply parse_hms_fields; apply writes_str.
  - apply Z.div_pos; lia.
  - apply Z.mod_pos_bound; lia.
  - apply Z.mod_pos_bound; lia.
Qed.

(** X3: for a non-negative duration, the coarse duration read back gives
    hours, minutes below 60 and seconds below 60 that add up to the whole
    seconds of the duration. *)
Theorem coarse_duration_reads_back (d : Q) :
  0 <= d ->
  exists h m c,
    parse_hms (coarse_duration d) = Some (h, m, c)
    /\ (3600 * h + 60 * m + c = Qfloor d)%Z
    /\ (0 <= h)%Z /\ (0 <= m < 60)%Z /\ (0 <= c < 60)%Z.
Proof.
  intros H0.
  assert (HD : (0 <= Qfloor d)%Z).
  { change 0%Z with (Qfloor 0). apply Qfloor_resp_le. assumption. }
  exists (Qfloor d / 3600)%Z, (Qfloor d / 60 mod 60)%Z, (Qfloor d mod 60)%Z.
  split; [apply parse_coarse_duration; assumption|].
  repeat split; Z.div_mod_to_equations; lia.
Qed.

Lemma coarse_duration_reads_back_witness :
  0 <= 90061 + (1 # 2)
  /\ exists h m c,
       parse_hms (coarse_duration (90061 + (1 # 2))) = Some (h, m, c)
       /\ (3600 * h + 60 * m + c = Qfloor (90061 + (1 # 2)))%Z
       /\ (0 <= h)%Z /\ (0 <= m < 60)%Z /\ (0 <= c < 60)%Z.
Proof.
  split; [discriminate|].
  apply (coarse_duration_reads_back (90061 + (1 # 2))). discriminate.
Defined.

(** X4: the two formatters cut the same seconds: for a non-negative
    number, the time code of [format_time] without its milliseconds is
    the hours, minutes and seconds of the coarse duration. *)
Theorem formatters_agree (d : Q) :
  0 <= d ->
  exists t h m c,
    parse_time_code (format_time d) = Some t
    /\ parse_hms (coarse_duration d) = Some (h, m, c)
    /\ (t / 1000 = 3600 * h + 60 * m + c)%Z.
Proof.
  intros H0.
  exists (millis d), (Qfloor d / 3600)%Z, (Qfloor d / 60 mod 60)%Z, (Qfloor d mod 60)%Z.
  split; [|split; [apply parse_coarse_duration; assumption|]].
  - rewrite format_time_millis. apply parse_time_code_of_millis.
    apply millis_nonneg; assumption.
  - rewrite floor_millis. Z.div_mod_to_equations; lia.
Qed.

Lemma formatters_agree_witness :
  0 <= 7323 # 2
  /\ exists t h m c,
       parse_time_code (format_time (7323 # 2)) = Some t
       /\ parse_hms (coarse_duration (7323 # 2)) = Some (h, m, c)
       /\ (t / 1000 = 3600 * h + 60 * m + c)%Z.
Proof.
  split; [discriminate|]. apply (formatters_agree (7323 # 2)). discriminate.
Defined.

End Formatters.

(** ** Trimming, and documents of joined lists *)

Section Trimming.

Lemma lstrip_split (s : string) :
  exists before, s = before ++ Py.lstrip s /\ all_space before = true.
Proof.
  induction s as [|c s (before & E & Hb)]; simpl.
  - exists "". split; reflexivity.
  - destruct (Py.isspace c) eqn:Hc.
    + exists (String c before). simpl. rewrite Hc, Hb, <- E. split; reflexivity.
    + exists "". split; reflexivity.
Qed.

Lemma lstrip_start (s : string) : starts_with_space (Py.lstrip s) = false.
Proof.
  induction s as [|c s IH]; simpl; [reflexivity|].
  destruct (Py.isspace c) eqn:Hc; [exact IH | simpl; exact Hc].
Qed.

Lemma rstrip_split (s : string) :
  exists after, s = Py.rstrip s ++ after /\ all_space after = true.
Proof.
  induction s as [|c s (after & E & Ha)]; simpl.
  - exists "". split; reflexivity.
  - destruct (Py.rstrip s) as [|r rs] eqn:Hr.
    + simpl in E. subst after.
      destruct (Py.isspace c) eqn:Hc.
      * exists (String c s). simpl. rewrite Hc, Ha. split; reflexivity.
      * exists s. split; [reflexivity | assumption].
    + exists after. simpl. rewrite E at 1. split; [reflexivity | assumption].
Qed.

Lemma rstrip_end (s : string) : ends_with_space (Py.rstrip s) = false.
Proof.
  induction s as [|c s IH]; simpl; [reflexivity|].
  destruct (Py.rstrip s) as [|r rs] eqn:Hr.
  - destruct (Py.isspace c) eqn:Hc; simpl; [reflexivity | exact Hc].
  - exact IH.
Qed.

Lemma rstrip_start (s : string) :
  starts_with_space s = false -> starts_with_space (Py.rstrip s) = false.
Proof.
  destruct s as [|c s]; simpl; [reflexivity|]. intros Hc.
  destruct (Py.rstrip s); [rewrite Hc|]; simpl; auto.
Qed.

(** [strip] takes whitespace off both ends and nothing else. *)
Lemma strip_split (s : string) : trimmed s (Py.strip s).
Proof.
  destruct (lstrip_split s) as (before & E1 & Hb).
  destruct (rstrip_split (Py.lstrip s)) as (after & E2 & Ha).
  exists before, after. unfold Py.strip.
  rewrite <- E2, <- E1.
  repeat split; auto using rstrip_end, rstrip_start, lstrip_start.
Qed.

Lemma enumerate_from_append {A} (k : nat) (a b : list A) :
  combine (map Z.of_nat (seq k (List.length (a ++ b)))) (a ++ b)
  = (combine (map Z.of_nat (seq k (List.length a))) a
     ++ combine (map Z.of_nat (seq (k + List.length a) (List.length b))) b)%list.
Proof.
  revert k. induction a as [|x a IH]; intros k; simpl.
  - now rewrite Nat.add_0_r.
  - rewrite IH. now rewrite Nat.add_succ_r.
Qed.

Lemma enumerate_from_shift (k j : nat) (b : list segment) :
  combine (map Z.of_nat (seq (j + k) (List.length b))) b
  = map (shift_index k) (combine (map Z.of_nat (seq j (List.length b))) b).
Proof.
  revert j. induction b as [|x b IH]; intros j; simpl; [reflexivity|].
  rewrite <- (IH (S j)). unfold shift_index at 1. simpl fst. simpl snd.
  rewrite Nat2Z.inj_add. reflexivity.
Qed.

(** X5: the lines of the document of [a ++ b] are the lines of the document
    of [a] followed by the blocks of [b], numbered on from the length of
    [a]: times and texts are unchanged, only the indices move. *)
Theorem srt_lines_append (a b : list segment) :
  srt_lines (a ++ b)
  = (srt_lines a
     ++ flat_map srt_block (map (shift_index (List.length a)) (enumerate b)))%list.
Proof.
  rewrite !srt_lines_blocks. unfold enumerate.
  rewrite enumerate_from_append, flat_map_app.
  rewrite (enumerate_from_shift (List.length a) 0 b). reflexivity.
Qed.

End Trimming.

(** ** What the document builder returns *)

Section DocumentText.

Lemma all_space_append (s1 s2 : string) :
  all_space (s1 ++ s2) = all_space s1 && all_space s2.
Proof.
  induction s1 as [|c s1 IH]; simpl; [reflexivity|].
  now rewrite IH, andb_assoc.
Qed.

Lemma lstrip_all_space (s : string) : all_space s = true -> Py.lstrip s = "".
Proof.
  induction s as [|c s IH]; simpl; [reflexivity|].
  intros H. apply andb_prop in H. destruct H as [Hc Hs]. rewrite Hc. auto.
Qed.

(** [strip] leaves nothing exactly of the texts of whitespace only. *)
Lemma strip_empty_iff (s : string) : Py.strip s = "" <-> all_space s = true.
Proof.
  split.
  - intros E. destruct (strip_split s) as (before & after & Hs & Hb & Ha & _).
    rewrite E in Hs. rewrite Hs, all_space_append, Hb. exact Ha.
  - intros H. unfold Py.strip. now rewrite (lstrip_all_space s H).
Qed.

Lemma lstrip_fixed (s : string) : starts_with_space s = false -> Py.lstrip s = s.
Proof. destruct s as [|c s]; simpl; [reflexivity|]. now intros ->. Qed.

Lemma lstrip_skip (before s : string) :
  all_space before = true -> Py.lstrip (before ++ s) = Py.lstrip s.
Proof.
  induction before as [|c before IH]; simpl; [reflexivity|].
  intros H. apply andb_prop in H. destruct H as [Hc Hb]. rewrite Hc. auto.
Qed.

Lemma rstrip_all_space (s : string) : all_space s = true -> Py.rstrip s = "".
Proof.
  induction s as [|c s IH]; simpl; [reflexivity|].
  intros H. apply andb_prop in H. destruct H as [Hc Hs]. now rewrite (IH Hs), Hc.
Qed.

Lemma rstrip_skip (s after : string) :
  all_space after = true -> Py.rstrip (s ++ after) = Py.rstrip s.
Proof.
  intros Ha. induction s as [|c s IH]; simpl.
  - apply rstrip_all_space; assumption.
  - now rewrite IH.
Qed.

Lemma rstrip_fixed (s : string) : ends_with_space s = false -> Py.rstrip s = s.
Proof.
  induction s as [|c s IH]; [reflexivity|].
  destruct s as [|c' s].
  - simpl. now intros ->.
  - intros H. change (ends_with_space (String c (String c' s)))
      with (ends_with_space (String c' s)) in H.
    change (Py.rstrip (String c (String c' s)))
      with (match Py.rstrip (String c' s) with
            | EmptyString => if Py.isspace c then "" else String c ""
            | r => String c r
            end).
    now rewrite (IH H).
Qed.

(** The text with the whitespace off its ends is one text only: what
    [strip] returns. *)
Lemma trimmed_iff_strip (s t : string) : trimmed s t <-> t = Py.strip s.
Proof.
  split.
  - intros (before & after & E & Hb & Ha & Hs & He). subst s. unfold Py.strip.
    rewrite lstrip_skip by assumption.
    destruct t as [|c t].
    + simpl. rewrite (lstrip_all_space after Ha). reflexivity.
    + rewrite lstrip_fixed by exact Hs.
      rewrite rstrip_skip by assumption. symmetry. apply rstrip_fixed. exact He.
  - intros ->. apply strip_split.
Qed.

(** The string joined from the lines of numbered segments is the text of
    the document of their blocks. *)
Lemma document_of_entries (entries : list (Z * segment)) :
  Py.join newline (flat_map srt_block entries)
  = document_text
      (map (fun e => Block (Py.str (fst e + 1))
                           (format_time (start (snd e)) ++ " --> "
                              ++ format_time (end_ (snd e)))
                           (Py.strip (text (snd e))) "") entries).
Proof.
  induction entries as [|e entries IH]; [reflexivity|].
  change (flat_map srt_block (e :: entries))
    with (Py.str (fst e + 1)
          :: (format_time (start (snd e)) ++ " --> " ++ format_time (end_ (snd e)))
          :: Py.strip (text (snd e)) :: "" :: flat_map srt_block entries).
  rewrite join_block. destruct entries as [|e' entries]; [reflexivity|].
  change (flat_map srt_block (e' :: entries))
    with (Py.str (fst e' + 1) :: (tl (srt_block e') ++ flat_map srt_block entries)%list)
    at 1.
  cbv beta iota. rewrite IH.
  set (mk := fun e0 : Z * segment => _) in *.
  change (document_text (map mk (e :: e' :: entries)))
    with (block_text (mk e) ++ newline ++ document_text (map mk (e' :: entries))).
  generalize (document_text (map mk (e' :: entries))) as rest. intros rest.
  subst mk. unfold block_text. cbn [index_line time_line text_line last_line].
  rewrite !append_assoc. reflexivity.
Qed.

Lemma document_of_segments (segments : list segment) :
  segments_to_srt segments = document_text (blocks (srt_lines segments)).
Proof.
  unfold segments_to_srt. rewrite srt_lines_blocks, blocks_flat_map.
  apply document_of_entries.
Qed.

Lemma Forall2_map_same {A B C} (P : B -> C -> Prop) (f : A -> B) (g : A -> C)
    (l : list A) :
  (forall x, P (f x) (g x)) -> Forall2 P (map f l) (map g l).
Proof. intros H. induction l; simpl; constructor; auto. Qed.

Lemma flat_map_combine_map {A B C} (F : A -> B -> list C) (g : A -> B) (l : list A) :
  flat_map (fun e => F (fst e) (snd e)) (combine l (map g l))
  = flat_map (fun x => F x (g x)) l.
Proof. induction l as [|x l IH]; simpl; [reflexivity | now rewrite IH]. Qed.

(** C2: the one segment from 0 to 1.25 with text ["Hello"] gives the four
    lines [1], [00:00:00,000 --> 00:00:01,250], [Hello] and the empty line,
    joined by newlines, and so does the same segment with whitespace (a
    no-break space and spaces before, a space, NEL and a newline after)
    around its text.  In general the document is the lines of the blocks,
    four a block (index, [start --> end], trimmed text, blank line), in the
    order of the segments and joined by newlines, where the trimmed text of
    a segment is its text with the whitespace taken off both ends and
    nothing else changed; seen block by block, each block is its three
    lines, each ended by a newline, and one newline (the blank line) stands
    between two blocks. *)
Theorem segments_to_srt_blocks (segments : list segment) :
  segments_to_srt [ {| start := 0; end_ := 125 # 100; text := "Hello" |} ]
  = "1
00:00:00,000 --> 00:00:01,250
Hello
"
  /\ segments_to_srt
       [ {| start := 0; end_ := 125 # 100;
            text := String (ascii_of_N 160)
                      ("  Hello " ++ String (ascii_of_N 133) newline) |} ]
     = "1
00:00:00,000 --> 00:00:01,250
Hello
"
  /\ segments_to_srt segments
     = Py.join newline (flat_map srt_block (enumerate segments))
  /\ segments_to_srt segments
     = Py.join newline (map render_block (enumerate segments))
  /\ exists texts,
       Forall2 (fun seg t => trimmed (text seg) t) segments texts
       /\ segments_to_srt segments
          = Py.join newline
              (flat_map
                 (fun e => block_lines (fst (fst e) + 1) (snd (fst e)) (snd e))
                 (combine (enumerate segments) texts)).
Proof.
  split; [reflexivity|]. split; [reflexivity|].
  unfold segments_to_srt. rewrite srt_lines_blocks. split; [reflexivity|].
  split; [apply join_render|].
  exists (map (fun e => Py.strip (text (snd e))) (enumerate segments)). split.
  - rewrite <- (enumerate_snd segments) at 1.
    apply Forall2_map_same. intros e. apply strip_split.
  - rewrite (flat_map_combine_map
               (fun e t => block_lines (fst e + 1) (snd e) t)
               (fun e => Py.strip (text (snd e)))).
    reflexivity.
Qed.

(** C3: the empty list gives the empty string; for [n] segments the string
    returned is the text of a document of [n] blocks (a newline after each
    of the three lines of a block, one more between two blocks), built from
    [4 * n] lines; the index lines of the blocks are the numerals of [1..n]
    and read back as the numbers [1..n], and their time and text lines are
    those of the segments, in the order of the input. *)
Theorem segments_to_srt_indices (segments : list segment) :
  let n := List.length segments in
  let document := blocks (srt_lines segments) in
  segments_to_srt [] = ""
  /\ segments_to_srt segments = document_text document
  /\ List.length (srt_lines segments) = (4 * n)%nat
  /\ List.length document = n
  /\ map index_line document = map (fun k => Py.str (Z.of_nat k)) (seq 1 n)
  /\ map (fun b => numeral_value 0 (index_line b)) document = map Z.of_nat (seq 1 n)
  /\ map (fun b => (time_line b, text_line b, last_line b)) document
     = map (fun s => (format_time (start s) ++ " --> " ++ format_time (end_ s),
                      Py.strip (text s), "")) segments.
Proof.
  intros n document. subst document.
  split; [reflexivity|]. split; [apply document_of_segments|].
  rewrite srt_lines_blocks, blocks_flat_map, length_flat_map_block, enumerate_length.
  fold n. rewrite length_map, enumerate_length. fold n.
  rewrite !map_map. cbn [index_line time_line text_line last_line].
  assert (Hidx : map (fun e : Z * segment => Py.str (fst e + 1)) (enumerate segments)
                 = map (fun k => Py.str (Z.of_nat k)) (seq 1 n))
    by apply enumerate_indices.
  repeat split; try reflexivity.
  - exact Hidx.
  - rewrite <- (map_map (fun e : Z * segment => Py.str (fst e + 1)) (numeral_value 0)).
    rewrite Hidx, map_map. apply map_ext. intros k.
    apply numeral_value_str. lia.
  - rewrite <- (enumerate_snd segments) at 2. rewrite map_map. reflexivity.
Qed.

(** X6: no segment is dropped for its text: the string returned is the
    text of a document with one block for each segment, in order, and the
    text line of a block is empty exactly when the text of its segment is
    whitespace only (or empty). *)
Theorem srt_blank_text_kept (segments : list segment) :
  exists document,
    segments_to_srt segments = document_text document
    /\ Forall2 (fun seg b => text_line b = "" <-> all_space (text seg) = true)
               segments document.
Proof.
  exists (blocks (srt_lines segments)). split; [apply document_of_segments|].
  rewrite srt_lines_blocks, blocks_flat_map.
  rewrite <- (enumerate_snd segments) at 1.
  apply Forall2_map_same. intros e. cbn [text_line]. apply strip_empty_iff.
Qed.

End DocumentText.

(** ** The runs of [main] *)

Section Runs.

Ltac run :=
  cbv beta iota zeta
      delta [main main_body cmd get_video_duration with_VideoFileClip write_file
             generate_summary bind ret raise emit call finally print app
             duration_events whisper_events segments_events timestamps_events
             exit_message no_transcript no_content message class].

Variable w : world.

Lemma get_video_duration_opened (p : path) (video : clip) :
  VideoFileClip w p = inr video ->
  get_video_duration w p
  = ([VideoOpened p; VideoClosed p], Return (coarse_duration (duration video))).
Proof. intros H. unfold get_video_duration, with_VideoFileClip. now rewrite H. Qed.

Lemma get_video_duration_unreadable (p : path) (e : exn) :
  VideoFileClip w p = inl e -> get_video_duration w p = ([], Raise e).
Proof. intros H. unfold get_video_duration, with_VideoFileClip. now rewrite H. Qed.

Lemma main_stop_not_finished (e : exn) : main_stop e <> Finished.
Proof. unfold main_stop. destruct (class e); discriminate. Qed.

(** The video cannot be opened: [main] stops at once. *)
Lemma main_at_unreadable (e : exn) :
  VideoFileClip w (args_file w) = inl e ->
  main w = ([], main_stop e).
Proof.
  intros Hvideo. unfold main_stop. run. rewrite Hvideo.
  destruct e as [[| |] m]; reflexivity.
Qed.

(** No audio stream. *)
Lemma main_at_silent (video : clip) :
  VideoFileClip w (args_file w) = inr video -> audio video = None ->
  main w
  = ((duration_events (args_file w) (coarse_duration (duration video))
      ++ [VideoOpened (args_file w); VideoClosed (args_file w);
          Printed ("Error transcribing video: " ++ no_audio_message)])%list,
     Exited (exit_message no_transcript)).
Proof.
  intros Hvideo Haudio. run.
  rewrite (transcribe_silent w _ video Hvideo Haudio), Hvideo. reflexivity.
Qed.

(** The whisper model raises an [Exception]. *)
Lemma main_at_whisper_error (video : clip) (a : AudioFileClip) (e : exn) :
  VideoFileClip w (args_file w) = inr video -> audio video = Some a ->
  whisper_model_transcribe w (args_file w) = inl e ->
  class e <> BaseException ->
  main w
  = ((duration_events (args_file w) (coarse_duration (duration video))
      ++ whisper_events (args_file w)
      ++ [Printed (transcribe_prefix (class e) ++ message e)])%list,
     Exited (exit_message no_transcript)).
Proof.
  intros Hvideo Haudio Hwhisper Hclass. run.
  rewrite (transcribe_whisper_error w _ video a e Hvideo Haudio Hwhisper Hclass), Hvideo.
  reflexivity.
Qed.

(** The whisper model raises an exception outside [Exception]. *)
Lemma main_at_whisper_escape (video : clip) (a : AudioFileClip) (e : exn) :
  VideoFileClip w (args_file w) = inr video -> audio video = Some a ->
  whisper_model_transcribe w (args_file w) = inl e ->
  class e = BaseException ->
  main w
  = ((duration_events (args_file w) (coarse_duration (duration video))
      ++ whisper_events (args_file w))%list,
     Uncaught e).
Proof.
  intros Hvideo Haudio Hwhisper Hclass. run.
  rewrite (transcribe_whisper_escape w _ video a e Hvideo Haudio Hwhisper Hclass), Hvideo.
  destruct e as [c m]. simpl in Hclass. subst c. reflexivity.
Qed.

Section Transcribed.

Variables (video : clip) (a : AudioFileClip) (r : whisper_result).
Hypothesis Hvideo : VideoFileClip w (args_file w) = inr video.
Hypothesis Haudio : audio video = Some a.
Hypothesis Hwhisper : whisper_model_transcribe w (args_file w) = inr r.

Let d := coarse_duration (duration video).
Let srt := segments_to_srt (segments r).
Let transcribed :=
  (duration_events (args_file w) d ++ whisper_events (args_file w))%list.

(** [segments.srt] cannot be opened. *)
Lemma main_at_segments_error (e : exn) :
  open_w w "segments.srt" = Some e ->
  main w = (transcribed, main_stop e).
Proof.
  intros Hsegments. subst transcribed d. unfold main_stop. run.
  rewrite (transcribe_success w _ video a r Hvideo Haudio Hwhisper), Hvideo.
  run. rewrite Hsegments. destruct e as [[| |] m]; reflexivity.
Qed.

(** The chat service raises. *)
Lemma main_at_chat_error (e : exn) :
  open_w w "segments.srt" = None ->
  chat_completions_create w (summary_request srt d) = inl e ->
  main w = ((transcribed ++ segments_events srt d)%list, main_stop e).
Proof.
  intros Hsegments Hchat. subst transcribed srt d. unfold main_stop. run.
  rewrite (transcribe_success w _ video a r Hvideo Haudio Hwhisper), Hvideo.
  run. rewrite Hsegments. run. rewrite Hchat. destruct e as [[| |] m]; reflexivity.
Qed.

(** The chat service answers without a text. *)
Lemma main_at_no_content :
  open_w w "segments.srt" = None ->
  chat_completions_create w (summary_request srt d) = inr None ->
  main w
  = ((transcribed ++ segments_events srt d)%list, Exited (exit_message no_content)).
Proof.
  intros Hsegments Hchat. subst transcribed srt d. run.
  rewrite (transcribe_success w _ video a r Hvideo Haudio Hwhisper), Hvideo.
  run. rewrite Hsegments. run. rewrite Hchat. reflexivity.
Qed.

(** [timestamps.txt] cannot be opened. *)
Lemma main_at_timestamps_error (answer : string) (e : exn) :
  open_w w "segments.srt" = None ->
  chat_completions_create w (summary_request srt d) = inr (Some answer) ->
  open_w w "timestamps.txt" = Some e ->
  main w = ((transcribed ++ segments_events srt d)%list, main_stop e).
Proof.
  intros Hsegments Hchat Htimestamps. subst transcribed srt d. unfold main_stop. run.
  rewrite (transcribe_success w _ video a r Hvideo Haudio Hwhisper), Hvideo.
  run. rewrite Hsegments. run. rewrite Hchat. run. rewrite Htimestamps.
  destruct e as [[| |] m]; reflexivity.
Qed.

(** Every step succeeds. *)
Lemma main_at_success (answer : string) :
  open_w w "segments.srt" = None ->
  chat_completions_create w (summary_request srt d) = inr (Some answer) ->
  open_w w "timestamps.txt" = None ->
  main w
  = ((transcribed ++ segments_events srt d ++ timestamps_events answer)%list, Finished).
Proof.
  intros Hsegments Hchat Htimestamps. subst transcribed srt d. run.
  rewrite (transcribe_success w _ video a r Hvideo Haudio Hwhisper), Hvideo.
  run. rewrite Hsegments. run. rewrite Hchat. run. rewrite Htimestamps. reflexivity.
Qed.

End Transcribed.

End Runs.

(** ** What [transcribe] and [main] always do, and never do *)

Ltac transcribe_split w p :=
  let e := fresh "e" in
  let video := fresh "video" in
  let a := fresh "a" in
  let r := fresh "r" in
  let Hvideo := fresh "Hvideo" in
  let Haudio := fresh "Haudio" in
  let Hwhisper := fresh "Hwhisper" in
  let Hclass := fresh "Hclass" in
  destruct (VideoFileClip w p) as [e|video] eqn:Hvideo;
  [ destruct (class_cases e) as [Hclass|Hclass];
    [ rewrite (transcribe_open_escape w p e Hvideo Hclass) in *
    | rewrite (transcribe_open_error w p e Hvideo Hclass) in * ]
  | destruct (audio video) as [a|] eqn:Haudio;
    [ destruct (whisper_model_transcribe w p) as [e|r] eqn:Hwhisper;
      [ destruct (class_cases e) as [Hclass|Hclass];
        [ rewrite (transcribe_whisper_escape w p video a e Hvideo Haudio Hwhisper Hclass) in *
        | rewrite (transcribe_whisper_error w p video a e Hvideo Haudio Hwhisper Hclass) in * ]
      | rewrite (transcribe_success w p video a r Hvideo Haudio Hwhisper) in * ]
    | rewrite (transcribe_silent w p video Hvideo Haudio) in * ] ].

Ltac main_split w :=
  let e := fresh "e" in
  let video := fresh "video" in
  let a := fresh "a" in
  let r := fresh "r" in
  let answer := fresh "answer" in
  let Hvideo := fresh "Hvideo" in
  let Haudio := fresh "Haudio" in
  let Hwhisper := fresh "Hwhisper" in
  let Hclass := fresh "Hclass" in
  let Hsegments := fresh "Hsegments" in
  let Hchat := fresh "Hchat" in
  let Htimestamps := fresh "Htimestamps" in
  destruct (VideoFileClip w (args_file w)) as [e|video] eqn:Hvideo;
  [ rewrite (main_at_unreadable w e Hvideo) in *
  | destruct (audio video) as [a|] eqn:Haudio;
    [ destruct (whisper_model_transcribe w (args_file w)) as [e|r] eqn:Hwhisper;
      [ destruct (class_cases e) as [Hclass|Hclass];
        [ rewrite (main_at_whisper_escape w video a e Hvideo Haudio Hwhisper Hclass) in *
        | rewrite (main_at_whisper_error w video a e Hvideo Haudio Hwhisper Hclass) in * ]
      | destruct (open_w w "segments.srt") as [e|] eqn:Hsegments;
        [ rewrite (main_at_segments_error w video a r Hvideo Haudio Hwhisper e Hsegments) in *
        | destruct (chat_completions_create w
                      (summary_request (segments_to_srt (segments r))
                                       (coarse_duration (duration video))))
            as [e|[answer|]] eqn:Hchat;
          [ rewrite (main_at_chat_error w video a r Hvideo Haudio Hwhisper e
                       Hsegments Hchat) in *
          | destruct (open_w w "timestamps.txt") as [e|] eqn:Htimestamps;
            [ rewrite (main_at_timestamps_error w video a r Hvideo Haudio Hwhisper
                         answer e Hsegments Hchat Htimestamps) in *
            | rewrite (main_at_success w video a r Hvideo Haudio Hwhisper
                         answer Hsegments Hchat Htimestamps) in * ]
          | rewrite (main_at_no_content w video a r Hvideo Haudio Hwhisper
                       Hsegments Hchat) in * ] ] ]
    | rewrite (main_at_silent w video Hvideo Haudio) in * ] ].

Ltac list_events :=
  cbv beta iota delta [fst snd app duration_events whisper_events segments_events
                       timestamps_events events result] in *.

Section Always.

Lemma path_eqb_refl (p : path) : path_eqb p p = true.
Proof. destruct p; simpl; [apply String.eqb_refl | reflexivity]. Qed.

Lemma closed_in_turn_pair (p : path) (t : list event) :
  closed_in_turn (VideoOpened p :: VideoClosed p :: t) = closed_in_turn t.
Proof. simpl. now rewrite path_eqb_refl. Qed.

(** X7: [transcribe] calls the whisper model exactly when the video opens
    and has an audio stream; it then calls it on the path it was given,
    once, and only after the video has been closed again. *)
Theorem transcribe_calls_whisper (w : world) (p : path) :
  (In (WhisperCalled p) (events (transcribe w p))
   <-> exists video a, VideoFileClip w p = inr video /\ audio video = Some a)
  /\ forall q,
       In (WhisperCalled q) (events (transcribe w p)) ->
       q = p
       /\ exists rest,
            events (transcribe w p)
            = ([VideoOpened p; VideoClosed p; WhisperCalled p] ++ rest)%list
            /\ filter is_whisper_call rest = [].
Proof.
  transcribe_split w p; list_events; split.
  all: try (split;
            [ intros H; first
                [ eexists; eexists; split; [reflexivity | eassumption]
                | exfalso; cbn [In] in H;
                  repeat (destruct H as [H|H]; [discriminate H|]); exact H ]
            | intros (v & a' & Hv & Ha'); first
                [ discriminate Hv
                | injection Hv as <-; congruence
                | cbn [In]; tauto ] ]).
  all: intros q H; cbn [In] in H;
    repeat (destruct H as [H|H]; [try discriminate H|]); try contradiction;
    injection H as <-; (split; [reflexivity|]); eexists; (split; reflexivity).
Qed.

(** X8: in [get_video_duration], in [transcribe] and in the whole of
    [main], whatever the world answers, a video that is opened is closed
    by the very next event (before anything is printed and before the
    whisper model runs), and nothing is closed that was not opened. *)
Theorem videos_closed_in_turn (w : world) (p : path) :
  closed_in_turn (events (get_video_duration w p)) = true
  /\ closed_in_turn (events (transcribe w p)) = true
  /\ closed_in_turn (fst (main w)) = true.
Proof.
  split; [|split].
  - destruct (VideoFileClip w p) as [e|video] eqn:Hvideo.
    + now rewrite (get_video_duration_unreadable w p e Hvideo).
    + rewrite (get_video_duration_opened w p video Hvideo).
      list_events. now rewrite closed_in_turn_pair.
  - transcribe_split w p; list_events; cbn [closed_in_turn];
      rewrite ?path_eqb_refl; reflexivity.
  - main_split w; list_events; cbn [closed_in_turn];
      rewrite ?path_eqb_refl; reflexivity.
Qed.

End Always.

(** ** The runs of [main], case by case *)

Section MainRuns.

(** X9: [main] returns normally only if every step succeeded: the video
    opened and has an audio stream, the whisper model returned, the chat
    service answered with a text the request built from the subtitles and
    the coarse duration, and both [segments.srt] and [timestamps.txt] could
    be opened.  In every other world it stops through [exit] or with an
    uncaught exception. *)
Theorem main_finishes_only_if (w : world) :
  snd (main w) = Finished ->
  exists video a r answer,
    VideoFileClip w (args_file w) = inr video
    /\ audio video = Some a
    /\ whisper_model_transcribe w (args_file w) = inr r
    /\ open_w w "segments.srt" = None
    /\ chat_completions_create w
         (summary_request (segments_to_srt (segments r))
                          (coarse_duration (duration video))) = inr (Some answer)
    /\ open_w w "timestamps.txt" = None.
Proof.
  intros Hfin. main_split w; list_events;
    try discriminate Hfin;
    try (elim (main_stop_not_finished _ Hfin)).
  exists video, a, r, answer. repeat split; assumption.
Qed.

Lemma main_finishes_only_if_witness :
  snd (main example_world) = Finished
  /\ exists video a r answer,
       VideoFileClip example_world (args_file example_world) = inr video
       /\ audio video = Some a
       /\ whisper_model_transcribe example_world (args_file example_world) = inr r
       /\ open_w example_world "segments.srt" = None
       /\ chat_completions_create example_world
            (summary_request (segments_to_srt (segments r))
                             (coarse_duration (duration video))) = inr (Some answer)
       /\ open_w example_world "timestamps.txt" = None.
Proof.
  assert (Hfin : snd (main example_world) = Finished) by reflexivity.
  split; [exact Hfin|].
  apply (main_finishes_only_if example_world Hfin).
Defined.

(** X10: when every step succeeds, [main] opens and closes the video twice
    (once for the duration, once for the audio check), runs the whisper
    model once, writes to [segments.srt] the document of the segments the
    model returned, sends the chat service that very document together with
    the coarse duration of the video, and writes to [timestamps.txt] the
    answer with the whitespace at its ends removed; it does nothing else. *)
Theorem main_success
    (w : world) (video : clip) (a : AudioFileClip) (r : whisper_result)
    (answer : string) :
  let p := args_file w in
  let d := coarse_duration (duration video) in
  let srt := segments_to_srt (segments r) in
  VideoFileClip w p = inr video ->
  audio video = Some a ->
  whisper_model_transcribe w p = inr r ->
  open_w w "segments.srt" = None ->
  chat_completions_create w (summary_request srt d) = inr (Some answer) ->
  open_w w "timestamps.txt" = None ->
  main w
  = ([VideoOpened p; VideoClosed p; Printed ("Video duration: " ++ d);
      VideoOpened p; VideoClosed p; WhisperCalled p;
      Printed "Writing segments SRT file to: segments.srt";
      Written "segments.srt" srt;
      ChatCalled (summary_request srt d);
      Printed "Writing YouTube timestamps file to: timestamps.txt";
      Written "timestamps.txt" (Py.strip answer)],
     Finished).
Proof.
  intros p d srt Hv Ha Hw Hs Hc Ht.
  rewrite (main_at_success w video a r Hv Ha Hw answer Hs Hc Ht). reflexivity.
Qed.

Lemma main_success_witness :
  let w := example_world in
  let video := {| audio := Some AudioStream; duration := 150 |} in
  let r := {| result_text := "Hello";
              segments := [ {| start := 0; end_ := 125 # 100; text := " Hello" |} ] |} in
  VideoFileClip w (args_file w) = inr video
  /\ audio video = Some AudioStream
  /\ whisper_model_transcribe w (args_file w) = inr r
  /\ open_w w "segments.srt" = None
  /\ chat_completions_create w
       (summary_request (segments_to_srt (segments r))
                        (coarse_duration (duration video)))
     = inr (Some "0:00 - Introduction
")
  /\ open_w w "timestamps.txt" = None
  /\ snd (main w) = Finished
  /\ In (Written "timestamps.txt" "0:00 - Introduction") (fst (main w)).
Proof.
  intros w video r.
  do 6 (split; [reflexivity|]).
  rewrite (main_success w video AudioStream r "0:00 - Introduction
" eq_refl eq_refl eq_refl eq_refl eq_refl eq_refl).
  split; [reflexivity|]. simpl. tauto.
Defined.

(** X11: when the chat service raises, [segments.srt] has been written
    with the whole document and nothing is written to [timestamps.txt];
    [main] stops with the message of that exception after "Error processing
    video: " when it is an [Exception], and with the exception itself,
    uncaught, when it is one outside [Exception]. *)
Theorem main_summary_failure
    (w : world) (video : clip) (a : AudioFileClip) (r : whisper_result) (e : exn) :
  let srt := segments_to_srt (segments r) in
  VideoFileClip w (args_file w) = inr video ->
  audio video = Some a ->
  whisper_model_transcribe w (args_file w) = inr r ->
  open_w w "segments.srt" = None ->
  chat_completions_create w
    (summary_request srt (coarse_duration (duration video))) = inl e ->
  (class e <> BaseException ->
   snd (main w) = Exited ("Error processing video: " ++ message e))
  /\ (class e = BaseException -> snd (main w) = Uncaught e)
  /\ filter is_write (fst (main w)) = [Written "segments.srt" srt]
  /\ forall data, ~ In (Written "timestamps.txt" data) (fst (main w)).
Proof.
  intros srt Hv Ha Hw Hs Hc.
  rewrite (main_at_chat_error w video a r Hv Ha Hw e Hs Hc). list_events.
  unfold main_stop.
  split; [destruct (class e); intros H; [reflexivity | reflexivity | congruence]|].
  split; [intros ->; reflexivity|].
  split; [reflexivity|].
  intros data H. cbn [In] in H.
  repeat (destruct H as [H|H]; [discriminate|]). exact H.
Qed.

Lemma main_summary_failure_witness :
  let w := chat_fails (Exn Exception "rate limit") in
  let video := {| audio := Some AudioStream; duration := 150 |} in
  let r := {| result_text := "Hello";
              segments := [ {| start := 0; end_ := 125 # 100; text := " Hello" |} ] |} in
  VideoFileClip w (args_file w) = inr video
  /\ audio video = Some AudioStream
  /\ whisper_model_transcribe w (args_file w) = inr r
  /\ open_w w "segments.srt" = None
  /\ chat_completions_create w
       (summary_request (segments_to_srt (segments r))
                        (coarse_duration (duration video)))
     = inl (Exn Exception "rate limit")
  /\ snd (main w) = Exited "Error processing video: rate limit".
Proof.
  intros w video r.
  do 5 (split; [reflexivity|]).
  destruct (main_summary_failure w video AudioStream r (Exn Exception "rate limit")
              eq_refl eq_refl eq_refl eq_refl eq_refl) as (Hcaught & _).
  apply Hcaught. discriminate.
Defined.

(** X12: when [transcribe] returns [None] (no audio stream, or a failing
    whisper model), [main] writes no file and never calls the chat
    service. *)
Theorem main_without_transcript_writes_nothing (w : world) :
  result (transcribe w (args_file w)) = Return None ->
  filter is_write (fst (main w)) = []
  /\ filter is_chat_call (fst (main w)) = [].
Proof.
  intros Hnone.
  assert (Hsome : forall video a r,
            VideoFileClip w (args_file w) = inr video -> audio video = Some a ->
            whisper_model_transcribe w (args_file w) = inr r -> False).
  { intros video a r Hv Ha Hw.
    rewrite (transcribe_success w _ video a r Hv Ha Hw) in Hnone. discriminate. }
  main_split w; list_events; try (split; reflexivity); exfalso; eauto.
Qed.

Lemma main_without_transcript_writes_nothing_witness :
  result (transcribe silent_world (args_file silent_world)) = Return None
  /\ filter is_write (fst (main silent_world)) = []
  /\ filter is_chat_call (fst (main silent_world)) = [].
Proof.
  split; [reflexivity|].
  apply (main_without_transcript_writes_nothing silent_world). reflexivity.
Defined.

(** X13: when the video cannot be opened, nothing is printed, no
    collaborator is called and no file is written: [main] stops at once,
    with the message of that exception after "Error processing video: " when
    it is an [Exception], and with the exception itself, uncaught, when it is
    one outside [Exception]. *)
Theorem main_unreadable_video (w : world) (e : exn) :
  VideoFileClip w (args_file w) = inl e ->
  (class e <> BaseException ->
   main w = ([], Exited ("Error processing video: " ++ message e)))
  /\ (class e = BaseException -> main w = ([], Uncaught e)).
Proof.
  intros Hv. rewrite (main_at_unreadable w e Hv). unfold main_stop.
  split; [destruct (class e); intros H; [reflexivity | reflexivity | congruence]
         | intros ->; reflexivity].
Qed.

Lemma main_unreadable_video_witness :
  let e := Exn Exception "MoviePy error: the file missing.mp4 could not be found!" in
  VideoFileClip (unreadable_world e) (args_file (unreadable_world e)) = inl e
  /\ main (unreadable_world e)
     = ([], Exited "Error processing video: MoviePy error: the file missing.mp4 could not be found!").
Proof.
  intros e. split; [reflexivity|].
  destruct (main_unreadable_video (unreadable_world e) e eq_refl) as (Hcaught & _).
  apply Hcaught. discriminate.
Defined.

(** X14: whenever [main] calls the chat service, the request is the one
    built from the document of the segments the whisper model returned and
    from the coarse duration of the same video, and that same document has
    been written to [segments.srt]. *)
Theorem main_chat_request (w : world) (sent : request) :
  In (ChatCalled sent) (fst (main w)) ->
  exists video r,
    VideoFileClip w (args_file w) = inr video
    /\ whisper_model_transcribe w (args_file w) = inr r
    /\ sent = summary_request (segments_to_srt (segments r))
                                 (coarse_duration (duration video))
    /\ In (Written "segments.srt" (segments_to_srt (segments r))) (fst (main w)).
Proof.
  intros Hin.
  main_split w; list_events; cbn [In] in Hin;
    repeat (destruct Hin as [Hin|Hin]; [try discriminate|]); try contradiction;
    injection Hin as <-; exists video, r;
    (split; [reflexivity|]); (split; [reflexivity|]); (split; [reflexivity|]);
    cbn [In]; tauto.
Qed.

Lemma main_chat_request_witness :
  let request := summary_request "1
00:00:00,000 --> 00:00:01,250
Hello
" "0:2:30" in
  In (ChatCalled request) (fst (main example_world))
  /\ exists video r,
       VideoFileClip example_world (args_file example_world) = inr video
       /\ whisper_model_transcribe example_world (args_file example_world) = inr r
       /\ request = summary_request (segments_to_srt (segments r))
                                    (coarse_duration (duration video))
       /\ In (Written "segments.srt" (segments_to_srt (segments r)))
             (fst (main example_world)).
Proof.
  intros request.
  assert (Hin : In (ChatCalled request) (fst (main example_world))).
  { simpl. tauto. }
  split; [exact Hin|].
  apply (main_chat_request example_world request Hin).
Defined.

(** X15: in every world, a run of [main] calls the whisper model at most
    once and the chat service at most once, and writes at most two files. *)
Theorem main_calls_at_most_once (w : world) :
  (List.length (filter is_whisper_call (fst (main w))) <= 1)%nat
  /\ (List.length (filter is_chat_call (fst (main w))) <= 1)%nat
  /\ (List.length (filter is_write (fst (main w))) <= 2)%nat.
Proof.
  main_split w; list_events; cbn [filter is_whisper_call is_chat_call is_write List.length];
    repeat split; lia.
Qed.

(** X16: [generate_summary] handles nothing: when the chat service raises,
    the same exception is raised to the caller; when the answer has no text
    ([None]), [strip] cannot be called on it and an exception is raised;
    when it has one, the text returned is the answer with whitespace taken
    off both ends and nothing else changed. *)
Theorem generate_summary_outcome (w : world) (transcript length : string) :
  match chat_completions_create w (summary_request transcript length) with
  | inl e => result (generate_summary w transcript length) = Raise e
  | inr None =>
      result (generate_summary w transcript length)
      = Raise (Exn Exception "'NoneType' object has no attribute 'strip'")
  | inr (Some answer) =>
      exists summary,
        result (generate_summary w transcript length) = Return summary
        /\ trimmed answer summary
  end.
Proof.
  unfold generate_summary.
  destruct (chat_completions_create w (summary_request transcript length))
    as [e|[answer|]]; [reflexivity | | reflexivity].
  exists (Py.strip answer). split; [reflexivity | apply strip_split].
Qed.

End MainRuns.

(** ** Worked examples *)

Example format_time_zero : format_time 0 = "00:00:00,000".
Proof. reflexivity. Qed.

Example format_time_3661_5 : format_time (7323 # 2) = "01:01:01,500".
Proof. reflexivity. Qed.

Example system_prompt_length : String.length system_prompt = 2721%nat.
Proof. reflexivity. Qed.

(** A run of [main] on a video of 150 seconds with one segment. *)
Example main_example :
  main example_world
  = ([VideoOpened (Some "talk.mp4"); VideoClosed (Some "talk.mp4");
      Printed "Video duration: 0:2:30";
      VideoOpened (Some "talk.mp4"); VideoClosed (Some "talk.mp4");
      WhisperCalled (Some "talk.mp4");
      Printed "Writing segments SRT file to: segments.srt";
      Written "segments.srt" "1
00:00:00,000 --> 00:00:01,250
Hello
";
      ChatCalled (summary_request "1
00:00:00,000 --> 00:00:01,250
Hello
" "0:2:30");
      Printed "Writing YouTube timestamps file to: timestamps.txt";
      Written "timestamps.txt" "0:00 - Introduction"],
     Finished).
Proof. reflexivity. Qed.

(** Without sound, [main] stops before any file is written. *)
Example main_silent :
  main silent_world
  = ([VideoOpened (Some "silent.mp4"); VideoClosed (Some "silent.mp4");
      Printed "Video duration: 0:2:30";
      VideoOpened (Some "silent.mp4"); VideoClosed (Some "silent.mp4");
      Printed "Error transcribing video: File does not contain an audio stream."],
     Exited "Error processing video: Cannot proceed without a valid transcription.").
Proof. reflexivity. Qed.
